(** * WaDIQaM: the evaluator [measure] and the epoch-level training controller

    A shallow embedding of [WaDIQaM.py]: the statistical evaluation routine
    [measure] and the [__main__] control loop (training pass, validation,
    optional test, best-model update, final test).

    The deep-learning framework (the network, the optimizer, tensors), the
    dataset provider and SciPy's correlation routines are external
    collaborators of the script; they enter the development as operations of
    an interface and every theorem holds for all of their implementations.
    Python floats are IEEE binary64 numbers and are modelled by Rocq's
    primitive floats. *)

From Stdlib Require Import ZArith QArith Floats List Lia Bool.
From stdpp Require Import gmap strings list.

Set Warnings "-register-all".

Local Open Scope float_scope.

(** ** The order on Python floats

    [a < b] on Python floats is the IEEE comparison: false as soon as one side
    is a NaN.  It is a strict partial order. *)

Module PyFloat.

Definition lt (a b : float) : bool := PrimFloat.ltb a b.

(** Finite numbers of one sign are compared lexicographically, exponent
    first: the comparison of positive ones is transitive. *)
Definition lexlt (e1 : Z) (m1 : positive) (e2 : Z) (m2 : positive) : Prop :=
  (e1 < e2)%Z \/ (e1 = e2 /\ (m1 < m2)%positive).

End PyFloat.

(** Further operations on Python floats. *)

Module PyOrder.

(** [a <= b] *)
Definition le (a b : float) : bool := PrimFloat.leb a b.

(** [math.isnan(a)] *)
Definition is_nan (a : float) : bool := PrimFloat.is_nan a.

(** [bool(a)]: every float but the two zeros is true, NaN included. *)
Definition truthy (a : float) : bool := negb (PrimFloat.eqb a 0).

End PyOrder.

(** ** NumPy arrays and the evaluator [measure] *)

Module Numpy.

(** A Python value that [np.asarray] turns into an array: a number, or a
    sequence (a list, a tuple, a tensor) of such values. *)
Inductive pyval : Type :=
| Num (x : float)
| Seq (items : list pyval).

(** The flat Python list [[x0, x1, ...]]. *)
Definition flat (l : list float) : pyval := Seq (map Num l).

(** The shape [np.asarray] finds: the items of a sequence must all have the
    same shape.  [None] when the nesting is ragged, which NumPy rejects. *)
Fixpoint shape_of (v : pyval) : option (list nat) :=
  match v with
  | Num _ => Some []
  | Seq items =>
      match map shape_of items with
      | [] => Some [0%nat]
      | Some s :: rest =>
          if forallb (fun o => bool_decide (o = Some s)) rest
          then Some (S (length rest) :: s) else None
      | None :: _ => None
      end
  end.

(** The entries in row-major order, as [np.reshape(a, (-1,))] lists them. *)
Fixpoint ravel (v : pyval) : list float :=
  match v with
  | Num x => [x]
  | Seq items => concat (map ravel items)
  end.

(** [np.reshape(np.asarray(v), (-1,))] *)
Definition reshape_flat (v : pyval) : option (list float) :=
  match shape_of v with
  | Some _ => Some (ravel v)
  | None => None
  end.

(** An elementwise binary operation on one-dimensional arrays, with NumPy's
    broadcasting: equal lengths, or one side of length one; [None] is the
    [ValueError] of shapes that cannot be broadcast together. *)
Definition broadcast {A B C : Type} (f : A -> B -> C)
    (a : list A) (b : list B) : option (list C) :=
  if Nat.eqb (length a) (length b) then Some (zip_with f a b)
  else match a, b with
       | [x], _ => Some (map (f x) b)
       | _, [y] => Some (map (fun x => f x y) a)
       | _, _ => None
       end.

(** A count as a float (exact below 2^53). *)
Definition of_nat (n : nat) : float :=
  PrimFloat.of_uint63 (Uint63.of_Z (Z.of_nat n)).

(** [x > y] *)
Definition gt (x y : float) : bool := PrimFloat.ltb y x.

(** [b.mean()] of a boolean array: the entries are summed as 0.0 and 1.0,
    which is exact, and the sum is divided by the size. *)
Definition mean_bool (b : list bool) : float :=
  of_nat (length (filter (fun x => Is_true x) b)) / of_nat (length b).

Section Measure.

(** SciPy's routines, on two one-dimensional arrays: the first component
    of the result, [None] when the routine raises. *)
Variables spearmanr kendalltau pearsonr :
  list float -> list float -> option float.

(** [np.add.reduce], the sum of a flat array in NumPy's own order of
    additions. *)
Variable add_reduce : list float -> float.

(** [a.mean()] of a float array. *)
Definition mean (a : list float) : float :=
  add_reduce a / of_nat (length a).

Definition measure (sq q sq_std : pyval)
  : option (float * float * float * float * float) :=
  sq ← reshape_flat sq;
  sq_std ← reshape_flat sq_std;
  q ← reshape_flat q;
  srocc ← spearmanr sq q;
  krocc ← kendalltau sq q;
  plcc ← pearsonr sq q;
  d ← broadcast PrimFloat.sub sq q;
  let rmse := PrimFloat.sqrt (mean (map (fun x => x * x) d)) in
  d' ← broadcast PrimFloat.sub sq q;
  o ← broadcast gt (map PrimFloat.abs d') (map (fun s => 2 * s) sq_std);
  let outlier_ratio := mean_bool o in
  Some (srocc, krocc, plcc, rmse, outlier_ratio).

(** *** The five values in the words of the specification *)

(** The square root of the mean of [(sq - q)^2]. *)
Definition rmse_spec (sq q : list float) : float :=
  PrimFloat.sqrt (mean (map (fun '(s, p) => (s - p) * (s - p)) (combine sq q))).

(** Item [i] is an outlier when [|sq_i - q_i| > 2 * sq_std_i]. *)
Definition is_outlier (item : float * float * float) : bool :=
  let '(s, p, sd) := item in PrimFloat.ltb (2 * sd) (PrimFloat.abs (s - p)).

(** The fraction of outliers among the items. *)
Definition outlier_ratio_spec (sq q sq_std : list float) : float :=
  of_nat (length (filter (fun it => Is_true (is_outlier it))
                         (combine (combine sq q) sq_std)))
  / of_nat (length sq).

End Measure.

End Numpy.

(** ** The training controller *)

Module Controller.
Import Numpy.

(** Python exceptions the script can raise by itself. *)
Inductive exn : Type :=
| NameError (name : string)
| TypeError
| IndexError
| ValueError
| AttributeError (attr : string).

Inductive result (A : Type) : Type :=
| Ok (a : A)
| Raise (e : exn).
Arguments Ok {A} a.
Arguments Raise {A} e.

(** Modelled from the spec: the dataset provider ([IQADataset] behind a
    [DataLoader]) is not part of the sources.  It yields batches of (patches,
    distortion labels, subjective quality mean, subjective quality std-dev),
    in that order. *)
Record batch : Type := Batch {
  patches : pyval;
  labels : pyval;
  mos : pyval;
  mos_std : pyval
}.

(** A batch as the Python sequence it is, and [data[k]]. *)
Definition batch_items (data : batch) : list pyval :=
  [patches data; labels data; mos data; mos_std data].

Definition getitem (data : batch) (k : nat) : option pyval :=
  batch_items data !! k.

(** The loaders: the batches of one pass over a split.  A pass is indexed by
    the epoch in which it is made (the final test is pass [n_epochs]): the
    train loader shuffles, and the provider may sample anew at every pass. *)
Record dataset : Type := Dataset {
  trainloader : nat -> list batch;
  valloader : nat -> list batch;
  testloader : nat -> list batch;
  test_index : pyval
}.

(** The entries of [conf] the controller reads, with [EXP_ID];
    [n_epochs] is the count given to [range].  The entries are taken to be
    there: the [KeyError] of one that is missing is not modelled. *)
Record config : Type := Config {
  EXP_ID : string;
  database : string;
  model : string;
  n_epochs : nat;
  test_ratio : float;
  test_during_training : bool;
  enableTensorboard : bool
}.

Definition trained_model_file (conf : config) : string :=
  "models/" +:+ model conf +:+ "-" +:+ database conf +:+ "-EXP" +:+ EXP_ID conf.

Definition save_result_file (conf : config) : string :=
  "results/" +:+ model conf +:+ "-" +:+ database conf +:+ "-EXP" +:+ EXP_ID conf.

(** [epoch > conf['n_epochs']/6], the quotient taken exactly.  Python 3
    compares the integer [epoch] with the float nearest to the quotient and
    Python 2 with its integer part: for an integer on the left the three
    comparisons agree. *)
Definition past_sixth (n epoch : nat) : bool :=
  negb (Qle_bool (inject_Z (Z.of_nat epoch)) (Z.of_nat n # 6)).

(** [test_ratio > 0] *)
Definition has_test (conf : config) : bool := PyFloat.lt 0 (test_ratio conf).

Inductive split : Type := TrainSplit | ValSplit | TestSplit.

(** The values [measure] returns. *)
Definition measures : Type := (float * float * float * float * float)%type.

(** One line of text, printed or written to the results file: the values
    handed to [format], in the order of the line. *)
Inductive line : Type :=
| UpdateLine (exp_id : string) (epoch : nat)
| ValResults (val_loss srocc krocc plcc rmse or_percent : float)
| TestResults (test_loss srocc krocc plcc rmse or_percent : float).

(** The tuple given to [np.save]. *)
Record test_record : Type := TestRecord {
  rec_sq : list pyval;
  rec_sq_std : list pyval;
  rec_q : list pyval;
  rec_test_loss : float;
  rec_SROCC : float;
  rec_KROCC : float;
  rec_PLCC : float;
  rec_RMSE : float;
  rec_OR : float;
  rec_test_index : pyval
}.

Section Main.

(** The network object and the optimizer, as the framework has them. *)
Variables Net Opt : Type.

(** The operations of the framework and of SciPy that the script calls. *)
Record framework : Type := Framework {
  (** [net.train()] and [net.eval()] *)
  net_train : Net -> Net;
  net_eval : Net -> Net;
  (** [zero_grad], the forward pass with [train=True], [backward] and the
      optimizer's step on one batch; with [loss.data[0]] *)
  train_step : Net -> Opt -> batch -> Net * Opt * float;
  (** [net(data, train=False)]: [outputs[0].data[0]] and [outputs[3].data] *)
  forward : Net -> batch -> pyval * pyval;
  (** [0 + t] and [a + t] on tensors, and [L[0]] as a Python float *)
  tensor_radd0 : pyval -> pyval;
  tensor_add : pyval -> pyval -> pyval;
  tensor_item0 : pyval -> float;
  spearmanr : list float -> list float -> option float;
  kendalltau : list float -> list float -> option float;
  pearsonr : list float -> list float -> option float;
  add_reduce : list float -> float
}.

(** What a path of the file system holds. *)
Inductive file : Type :=
| StateDict (net : Net)
| FullModel (net : Net)
| TextFile (lines : list line)
| NpyFile (r : test_record).

(** The calls to the collaborators, in order.  The epoch of an event and
    the event [EvGuard], which records the operands of the comparison of
    the best-model test, are annotations: no statement of the script reads
    them. *)
Inductive event : Type :=
| EvTrainStep (epoch : nat) (data : batch)
| EvMeasure (epoch : nat) (sp : split) (sq q sq_std : list pyval)
| EvScalar (logger : split) (tag : string) (value : float) (epoch : nat)
| EvGuard (epoch : nat) (net : Net) (val_loss best : float)
| EvCheckpoint (epoch : nat) (net : Net).

Record state : Type := State {
  net : Net;
  opt : Opt;
  step : nat;
  (** the loop variable [i], unbound until a loop has run once *)
  var_i : option nat;
  (** [val_OR], unbound until the first validation *)
  var_val_OR : option float;
  best_val_criterion : float;
  fs : gmap string file;
  stdout : list line;
  trace : list event
}.

Definition M (A : Type) : Type := state -> result A * state.

Definition ret {A} (a : A) : M A := fun st => (Ok a, st).
Definition raise {A} (e : exn) : M A := fun st => (Raise e, st).
Definition bind {A B} (m : M A) (k : A -> M B) : M B :=
  fun st => match m st with
            | (Ok a, st') => k a st'
            | (Raise e, st') => (Raise e, st')
            end.
Definition gets {A} (f : state -> A) : M A := fun st => (Ok (f st), st).
Definition modify (f : state -> state) : M unit := fun st => (Ok tt, f st).

Notation "x <- c ;; k" := (bind c (fun x => k))
  (at level 100, c at next level, right associativity).
Notation "c ;; k" := (bind c (fun _ => k))
  (at level 100, right associativity).

(** *** Assignments *)

Definition set_net (v : Net) (st : state) : state :=
  State v (opt st) (step st) (var_i st) (var_val_OR st)
        (best_val_criterion st) (fs st) (stdout st) (trace st).
Definition set_opt (v : Opt) (st : state) : state :=
  State (net st) v (step st) (var_i st) (var_val_OR st)
        (best_val_criterion st) (fs st) (stdout st) (trace st).
Definition set_step (v : nat) (st : state) : state :=
  State (net st) (opt st) v (var_i st) (var_val_OR st)
        (best_val_criterion st) (fs st) (stdout st) (trace st).
Definition set_var_i (v : option nat) (st : state) : state :=
  State (net st) (opt st) (step st) v (var_val_OR st)
        (best_val_criterion st) (fs st) (stdout st) (trace st).
Definition set_var_val_OR (v : option float) (st : state) : state :=
  State (net st) (opt st) (step st) (var_i st) v
        (best_val_criterion st) (fs st) (stdout st) (trace st).
Definition set_best_val_criterion (v : float) (st : state) : state :=
  State (net st) (opt st) (step st) (var_i st) (var_val_OR st)
        v (fs st) (stdout st) (trace st).
Definition set_fs (v : gmap string file) (st : state) : state :=
  State (net st) (opt st) (step st) (var_i st) (var_val_OR st)
        (best_val_criterion st) v (stdout st) (trace st).
Definition set_stdout (v : list line) (st : state) : state :=
  State (net st) (opt st) (step st) (var_i st) (var_val_OR st)
        (best_val_criterion st) (fs st) v (trace st).
Definition set_trace (v : list event) (st : state) : state :=
  State (net st) (opt st) (step st) (var_i st) (var_val_OR st)
        (best_val_criterion st) (fs st) (stdout st) v.

(** *** Effects *)

Definition emit (ev : event) : M unit :=
  modify (fun st => set_trace (trace st ++ [ev]) st).

Definition print (l : line) : M unit :=
  modify (fun st => set_stdout (stdout st ++ [l]) st).

(** [torch.save], [np.save] and [open(path, 'w')]: the path holds the new
    content, whatever it held. *)
Definition write_file (path : string) (f : file) : M unit :=
  modify (fun st => set_fs (<[path := f]> (fs st)) st).

(** [f.write(l)] on the text file open at [path]. *)
Definition add_line (l : line) (f : file) : file :=
  match f with
  | TextFile ls => TextFile (ls ++ [l])
  | _ => f
  end.

Definition write_line (path : string) (l : line) : M unit :=
  modify (fun st => set_fs (alter (add_line l) path (fs st)) st).

(** Reading [i] and [val_OR]. *)
Definition read_i : M nat :=
  fun st => match var_i st with
            | Some i => (Ok i, st)
            | None => (Raise (NameError "i"), st)
            end.

Definition read_val_OR : M float :=
  fun st => match var_val_OR st with
            | Some v => (Ok v, st)
            | None => (Raise (NameError "val_OR"), st)
            end.

(** [data[k]] *)
Definition index (data : batch) (k : nat) : M pyval :=
  match getitem data k with
  | Some v => ret v
  | None => raise IndexError
  end.

(** An attribute of the string [s] that [str] does not have. *)
Definition str_getattr (s attr : string) : M unit :=
  raise (AttributeError attr).

(** [for i, data in enumerate(l, k): body], with the variables the body
    assigns as [acc]. *)
Fixpoint for_enumerate {A Acc : Type} (k : nat) (l : list A)
    (body : A -> Acc -> M Acc) (acc : Acc) : M Acc :=
  match l with
  | [] => ret acc
  | data :: l' =>
      modify (set_var_i (Some k)) ;;
      acc' <- body data acc ;;
      for_enumerate (S k) l' body acc'
  end.

(** [for epoch in range(...): body] *)
Fixpoint for_range (epochs : list nat) (body : nat -> M unit) : M unit :=
  match epochs with
  | [] => ret tt
  | epoch :: rest => body epoch ;; for_range rest body
  end.

(** *** The script, from "Train the network" on *)

Variable fw : framework.
Variable ds : dataset.
Variable conf : config.

(** What the loop of an evaluation pass assigns: [L] (the integer 0 until
    a tensor is added to it), [q], [sq] and [sq_std]. *)
Definition eval_vars : Type :=
  (option pyval * list pyval * list pyval * list pyval)%type.

(** [L += t] *)
Definition iadd (L : option pyval) (t : pyval) : option pyval :=
  match L with
  | None => Some (tensor_radd0 fw t)
  | Some a => Some (tensor_add fw a t)
  end.

(** One iteration of the training loop: [zero_grad], forward, [L += ...],
    [backward], the optimizer's step, [step += 1]. *)
Definition train_batch (epoch : nat) (data : batch) (L : float) : M float :=
  n <- gets net ;;
  o <- gets opt ;;
  let '(n', o', loss) := train_step fw n o data in
  modify (fun st => set_opt o' (set_net n' st)) ;;
  emit (EvTrainStep epoch data) ;;
  modify (fun st => set_step (S (step st)) st) ;;
  ret (L + loss)%float.

(** The training pass of one epoch; its value is [train_loss]. *)
Definition train_pass (epoch : nat) : M float :=
  modify (fun st => set_net (net_train fw (net st)) st) ;;
  L <- for_enumerate 0 (trainloader ds epoch) (train_batch epoch) 0%float ;;
  i <- read_i ;;
  ret (L / of_nat (i + 1))%float.

(** One iteration over a validation or test batch. *)
Definition eval_batch (data : batch) (vars : eval_vars) : M eval_vars :=
  let '(L, q, sq, sq_std) := vars in
  x2 <- index data 2 ;;
  x3 <- index data 3 ;;
  n <- gets net ;;
  let '(o0, o3) := forward fw n data in
  ret (iadd L o0, q ++ [o3], sq ++ [x2], sq_std ++ [x3]).

(** [measure(sq, q, sq_std)] on the collected lists; [ValueError] stands
    for whatever [measure] raises. *)
Definition call_measure (epoch : nat) (sp : split)
    (sq q sq_std : list pyval) : M measures :=
  emit (EvMeasure epoch sp sq q sq_std) ;;
  match measure (spearmanr fw) (kendalltau fw) (pearsonr fw) (add_reduce fw)
                (Seq sq) (Seq q) (Seq sq_std) with
  | Some mv => ret mv
  | None => raise ValueError
  end.

(** The pass over the validation or the test split: the loss of the split,
    the values of [measure], and the lists [sq], [sq_std] and [q]. *)
Definition eval_pass (epoch : nat) (sp : split) (batches : list batch)
  : M (float * measures * (list pyval * list pyval * list pyval)) :=
  vars <- for_enumerate 0 batches eval_batch (None, [], [], []) ;;
  let '(L, q, sq, sq_std) := vars in
  L0 <- match L with
        | Some t => ret (tensor_item0 fw t)
        | None => raise TypeError
        end ;;
  i <- read_i ;;
  let loss := (L0 / of_nat (i + 1))%float in
  mv <- call_measure epoch sp sq q sq_std ;;
  ret (loss, mv, (sq, sq_std, q)).

(** [test_ratio > 0 and conf['test_during_training']] *)
Definition tests_during_training : bool :=
  has_test conf && test_during_training conf.

Definition log_measures (logger : split) (epoch : nat) (loss : float)
    (mv : measures) : M unit :=
  let '(srocc, krocc, plcc, rmse, o_r) := mv in
  emit (EvScalar logger "loss: " loss epoch) ;;
  emit (EvScalar logger "SROCC: " srocc epoch) ;;
  emit (EvScalar logger "KROCC: " krocc epoch) ;;
  emit (EvScalar logger "PLCC: " plcc epoch) ;;
  emit (EvScalar logger "RMSE: " rmse epoch) ;;
  emit (EvScalar logger "OR: " o_r epoch).

(** The variables of the test pass are bound only when it has run. *)
Definition test_vars : Type :=
  option (float * measures * (list pyval * list pyval * list pyval)).

Definition read_test (test : test_vars)
  : M (float * measures * (list pyval * list pyval * list pyval)) :=
  match test with
  | Some t => ret t
  | None => raise (NameError "test_loss")
  end.

Definition tensorboard (epoch : nat) (train_loss val_loss : float)
    (val_mv : measures) (test : test_vars) : M unit :=
  if enableTensorboard conf then
    emit (EvScalar TrainSplit "loss: " train_loss epoch) ;;
    log_measures ValSplit epoch val_loss val_mv ;;
    if tests_during_training then
      t <- read_test test ;;
      let '(test_loss, mv, _) := t in
      log_measures TestSplit epoch test_loss mv
    else ret tt
  else ret tt.

(** "Update the model with the best val when epoch is larger than
    n_epochs/6" *)
Definition update_best_model (epoch : nat) (val_loss : float)
    (val_mv : measures) (test : test_vars) : M unit :=
  let '(val_SROCC, val_KROCC, val_PLCC, val_RMSE, val_OR) := val_mv in
  best <- gets best_val_criterion ;;
  n <- gets net ;;
  emit (EvGuard epoch n val_loss best) ;;
  if PyFloat.lt val_loss best && past_sixth (n_epochs conf) epoch then
    let txt := save_result_file conf +:+ ".txt" in
    print (UpdateLine (EXP_ID conf) epoch) ;;
    print (ValResults val_loss val_SROCC val_KROCC val_PLCC val_RMSE
                      (val_OR * 100)%float) ;;
    write_file txt (TextFile []) ;;
    write_line txt (UpdateLine (EXP_ID conf) epoch) ;;
    write_line txt (ValResults val_loss val_SROCC val_KROCC val_PLCC val_RMSE
                               (val_OR * 100)%float) ;;
    (if tests_during_training then
       t <- read_test test ;;
       let '(test_loss, (SROCC, KROCC, PLCC, RMSE, OR), (sq, sq_std, q)) := t in
       print (TestResults test_loss SROCC KROCC PLCC RMSE
                          (val_OR * 100)%float) ;;
       write_line txt (TestResults test_loss SROCC KROCC PLCC RMSE
                                   (val_OR * 100)%float) ;;
       write_file (save_result_file conf +:+ ".npy")
                  (NpyFile (TestRecord sq sq_std q test_loss
                              SROCC KROCC PLCC RMSE OR (test_index ds)))
     else ret tt) ;;
    write_file (trained_model_file conf) (StateDict n) ;;
    emit (EvCheckpoint epoch n) ;;
    write_file (trained_model_file conf +:+ ".full") (FullModel n) ;;
    modify (set_best_val_criterion val_loss)
  else ret tt.

(** The passes of one epoch over the splits: training, validation and,
    when asked for, test.  Their value is [train_loss], [val_loss], the
    values of [measure] on the validation split, and the variables of the
    test pass. *)
Definition passes (epoch : nat) : M (float * float * measures * test_vars) :=
  train_loss <- train_pass epoch ;;
  modify (fun st => set_net (net_eval fw (net st)) st) ;;
  v <- eval_pass epoch ValSplit (valloader ds epoch) ;;
  let '(val_loss, val_mv, _) := v in
  modify (set_var_val_OR (Some (snd val_mv))) ;;
  test <- (if tests_during_training
           then t <- eval_pass epoch TestSplit (testloader ds epoch) ;;
                ret (Some t)
           else ret None) ;;
  ret (train_loss, val_loss, val_mv, test).

(** The body of the loop over the epochs. *)
Definition epoch_body (epoch : nat) : M unit :=
  r <- passes epoch ;;
  let '(train_loss, val_loss, val_mv, test) := r in
  tensorboard epoch train_loss val_loss val_mv test ;;
  update_best_model epoch val_loss val_mv test.

Definition training : M unit :=
  for_range (seq 0 (n_epochs conf)) epoch_body.

(** The test after the loop.  [model] is the string [conf['model']]. *)
Definition final_test : M unit :=
  if has_test conf then
    str_getattr (model conf) "load_state_dict" ;;
    str_getattr (model conf) "parameters" ;;
    str_getattr (model conf) "eval" ;;
    t <- eval_pass (n_epochs conf) TestSplit (testloader ds (n_epochs conf)) ;;
    let '(test_loss, (SROCC, KROCC, PLCC, RMSE, OR), (sq, sq_std, q)) := t in
    val_OR <- read_val_OR ;;
    print (TestResults test_loss SROCC KROCC PLCC RMSE (val_OR * 100)%float) ;;
    write_file (save_result_file conf +:+ ".npy")
               (NpyFile (TestRecord sq sq_std q test_loss
                           SROCC KROCC PLCC RMSE OR (test_index ds)))
  else ret tt.

Definition main : M unit :=
  training ;; final_test.

(** The state when training starts: [step = 1],
    [best_val_criterion = 10000], nothing written yet. *)
Definition init_state (net0 : Net) (opt0 : Opt) : state :=
  State net0 opt0 1 None None 10000%float ∅ [] [].

End Main.

Arguments Framework {Net Opt}.
Arguments net_train {Net Opt}.
Arguments net_eval {Net Opt}.
Arguments train_step {Net Opt}.
Arguments forward {Net Opt}.
Arguments tensor_radd0 {Net Opt}.
Arguments tensor_add {Net Opt}.
Arguments tensor_item0 {Net Opt}.
Arguments spearmanr {Net Opt}.
Arguments kendalltau {Net Opt}.
Arguments pearsonr {Net Opt}.
Arguments add_reduce {Net Opt}.
Arguments StateDict {Net}.
Arguments FullModel {Net}.
Arguments TextFile {Net}.
Arguments NpyFile {Net}.
Arguments EvTrainStep {Net}.
Arguments EvMeasure {Net}.
Arguments EvScalar {Net}.
Arguments EvGuard {Net}.
Arguments EvCheckpoint {Net}.
Arguments State {Net Opt}.
Arguments net {Net Opt}.
Arguments opt {Net Opt}.
Arguments step {Net Opt}.
Arguments var_i {Net Opt}.
Arguments var_val_OR {Net Opt}.
Arguments best_val_criterion {Net Opt}.
Arguments fs {Net Opt}.
Arguments stdout {Net Opt}.
Arguments trace {Net Opt}.
Arguments ret {Net Opt A}.
Arguments raise {Net Opt A}.
Arguments bind {Net Opt A B}.
Arguments gets {Net Opt A}.
Arguments modify {Net Opt}.
Arguments set_net {Net Opt}.
Arguments set_opt {Net Opt}.
Arguments set_step {Net Opt}.
Arguments set_var_i {Net Opt}.
Arguments set_var_val_OR {Net Opt}.
Arguments set_best_val_criterion {Net Opt}.
Arguments set_fs {Net Opt}.
Arguments set_stdout {Net Opt}.
Arguments set_trace {Net Opt}.
Arguments emit {Net Opt}.
Arguments print {Net Opt}.
Arguments write_file {Net Opt}.
Arguments add_line {Net}.
Arguments write_line {Net Opt}.
Arguments read_i {Net Opt}.
Arguments read_val_OR {Net Opt}.
Arguments index {Net Opt}.
Arguments str_getattr {Net Opt}.
Arguments for_enumerate {Net Opt A Acc}.
Arguments for_range {Net Opt}.
Arguments iadd {Net Opt}.
Arguments train_batch {Net Opt}.
Arguments train_pass {Net Opt}.
Arguments eval_batch {Net Opt}.
Arguments call_measure {Net Opt}.
Arguments eval_pass {Net Opt}.
Arguments log_measures {Net Opt}.
Arguments read_test {Net Opt}.
Arguments tensorboard {Net Opt}.
Arguments update_best_model {Net Opt}.
Arguments passes {Net Opt}.
Arguments epoch_body {Net Opt}.
Arguments training {Net Opt}.
Arguments final_test {Net Opt}.
Arguments main {Net Opt}.
Arguments init_state {Net Opt}.

End Controller.

(** ** Notions in which the properties are stated *)

Module Observe.
Import Numpy Controller.

Section Observe.

Context {Net Opt : Type}.
Variable fw : framework Net Opt.
Variable ds : dataset.
Variable conf : config.

(** [emits st st' evs]: from [st] to [st'] the criterion, the files and the
    printed lines are unchanged, and exactly the events [evs] happened. *)
Definition emits (st st' : state Net Opt) (evs : list (event Net)) : Prop :=
  best_val_criterion st' = best_val_criterion st
  /\ fs st' = fs st
  /\ stdout st' = stdout st
  /\ trace st' = trace st ++ evs.

(** The events that are neither the best-model test nor a checkpoint. *)
Definition quiet (ev : event Net) : Prop :=
  match ev with
  | EvGuard _ _ _ _ | EvCheckpoint _ _ => False
  | _ => True
  end.

Definition quiet_step (st st' : state Net Opt) : Prop :=
  exists evs, emits st st' evs /\ Forall quiet evs.

(** The scalars sent to the dashboard. *)
Definition is_scalar (ev : event Net) : Prop :=
  match ev with
  | EvScalar _ _ _ _ => True
  | _ => False
  end.

Definition scalar_step (st st' : state Net Opt) : Prop :=
  exists evs, emits st st' evs /\ Forall is_scalar evs.

(** The events that can follow the validation of an epoch: no step of
    training and no call of [measure] on the validation split. *)
Definition after_validation (ev : event Net) : Prop :=
  match ev with
  | EvTrainStep _ _ | EvMeasure _ ValSplit _ _ _ => False
  | _ => True
  end.

Definition is_checkpoint (ev : event Net) : Prop :=
  match ev with
  | EvCheckpoint _ _ => True
  | _ => False
  end.

(** No checkpoint is written in the course of [tr]. *)
Definition no_checkpoint (tr : list (event Net)) : Prop :=
  Forall (fun ev => ~ is_checkpoint ev) tr.

(** [tr] has the best-model test of epoch [e] on the network [n], with
    validation loss [l] against the criterion [b], directly followed by the
    checkpoint of [n]; [tr2] is what follows. *)
Definition checkpoint_at (tr : list (event Net)) (e : nat) (n : Net)
    (l b : float) (tr2 : list (event Net)) : Prop :=
  exists tr1, tr = tr1 ++ [EvGuard e n l b; EvCheckpoint e n] ++ tr2.

(** [q]: what the network predicts for the batches of a pass. *)
Definition predictions (n : Net) (bs : list batch) : list pyval :=
  map (fun data => snd (forward fw n data)) bs.

(** The call [measure(sq, q, sq_std)] of a pass over [bs] by the network
    [n]. *)
Definition measured (n : Net) (bs : list batch) : option measures :=
  measure (spearmanr fw) (kendalltau fw) (pearsonr fw) (add_reduce fw)
          (Seq (map mos bs)) (Seq (predictions n bs)) (Seq (map mos_std bs)).

(** What an epoch does to the criterion, the checkpoint files and the
    trace: it stops on an exception before the best-model test, or it
    reaches the test with some validation loss [l] and writes the
    checkpoint exactly when the test succeeds. *)
Definition epoch_step (e : nat) (st st' : state Net Opt)
    (pre : list (event Net)) : Prop :=
  emits st st' pre
  \/ exists l,
       if PyFloat.lt l (best_val_criterion st) && past_sixth (n_epochs conf) e
       then trace st' = trace st ++ pre
                        ++ [EvGuard e (net st') l (best_val_criterion st);
                            EvCheckpoint e (net st')]
            /\ best_val_criterion st' = l
            /\ fs st' !! trained_model_file conf = Some (StateDict (net st'))
            /\ fs st' !! (trained_model_file conf +:+ ".full")
               = Some (FullModel (net st'))
       else trace st' = trace st ++ pre
                        ++ [EvGuard e (net st') l (best_val_criterion st)]
            /\ best_val_criterion st' = best_val_criterion st
            /\ fs st' = fs st.

(** The checkpoints of a trace come after the first sixth of the epochs,
    each directly after a best-model test that succeeded. *)
Definition checkpoints_justified (tr : list (event Net)) : Prop :=
  forall e n, EvCheckpoint e n ∈ tr ->
    past_sixth (n_epochs conf) e = true
    /\ exists l b tr2, checkpoint_at tr e n l b tr2 /\ PyFloat.lt l b = true.

(** The criterion is 10000 while no checkpoint is written, and then the
    validation loss of the last checkpoint, whose network the two model
    files hold. *)
Definition criterion_tracks (st : state Net Opt) : Prop :=
  (no_checkpoint (trace st)
   /\ best_val_criterion st = 10000%float
   /\ fs st !! trained_model_file conf = None)
  \/ exists e n l b tr2,
       checkpoint_at (trace st) e n l b tr2
       /\ no_checkpoint tr2
       /\ best_val_criterion st = l
       /\ PyFloat.lt l 10000 = true
       /\ past_sixth (n_epochs conf) e = true
       /\ fs st !! trained_model_file conf = Some (StateDict n)
       /\ fs st !! (trained_model_file conf +:+ ".full") = Some (FullModel n).

(** No epoch after the first sixth had a validation loss below the
    criterion. *)
Definition criterion_bounds (st : state Net Opt) : Prop :=
  forall e n l b, EvGuard e n l b ∈ trace st ->
    past_sixth (n_epochs conf) e = true ->
    PyFloat.lt l (best_val_criterion st) = false.

Definition run_inv (st : state Net Opt) : Prop :=
  checkpoints_justified (trace st) /\ criterion_tracks st /\ criterion_bounds st.

(** The state after the first [k] epochs of a run (or where the run
    stopped, when an epoch before raised). *)
Definition after_epochs (net0 : Net) (opt0 : Opt) (k : nat) : state Net Opt :=
  snd (for_range (seq 0 k) (epoch_body fw ds conf) (init_state net0 opt0)).

(** The state in which the program ends. *)
Definition final_state (net0 : Net) (opt0 : Opt) : state Net Opt :=
  snd (main fw ds conf (init_state net0 opt0)).

(** [e <= n_epochs/6], the quotient taken exactly. *)
Definition in_first_sixth (e : nat) : Prop :=
  (inject_Z (Z.of_nat e) <= Z.of_nat (n_epochs conf) # 6)%Q.

(** The best-model tests of a trace: epoch, network, validation loss and
    criterion. *)
Definition guard_events (tr : list (event Net)) : list (nat * Net * float * float) :=
  omap (fun ev => match ev with
                  | EvGuard e n l b => Some (e, n, l, b)
                  | _ => None
                  end) tr.

(** The epoch [e], which left the network [n], had validation loss [l]. *)
Definition epoch_loss (st : state Net Opt) (e : nat) (n : Net) (l : float)
  : Prop :=
  exists b, EvGuard e n l b ∈ trace st.

(** In words of the specification: the checkpoint persisted as the best
    model is the one of the epoch whose validation loss is minimal over all
    the epochs of the run. *)
Definition best_is_minimal_over_all_epochs (st : state Net Opt) : Prop :=
  forall n, fs st !! trained_model_file conf = Some (StateDict n) ->
    exists e l, epoch_loss st e n l
      /\ forall e' n' l', epoch_loss st e' n' l' -> PyFloat.lt l' l = false.

(** [L] when the loop of a pass by the network [n] over [bs] has ended: the
    first loss added to the integer 0, the others added to the sum one by
    one.  With no batch [L] is still the integer. *)
Definition summed_loss (n : Net) (bs : list batch) : option pyval :=
  match bs with
  | [] => None
  | data :: rest =>
      Some (fold_left (fun L d => tensor_add fw L (fst (forward fw n d))) rest
                      (tensor_radd0 fw (fst (forward fw n data))))
  end.

(** The loss of a split, [L[0] / (i + 1)]: the first entry of the summed
    loss over the number of batches. *)
Definition split_loss (n : Net) (bs : list batch) : option float :=
  match summed_loss n bs with
  | Some L => Some (tensor_item0 fw L / of_nat (length bs))%float
  | None => None
  end.

(** The calls of [measure] on the validation split in a trace: the epoch
    and the three arguments. *)
Definition validation_calls (tr : list (event Net))
  : list (nat * list pyval * list pyval * list pyval) :=
  omap (fun ev => match ev with
                  | EvMeasure e ValSplit sq q sq_std => Some (e, sq, q, sq_std)
                  | _ => None
                  end) tr.

(** In words of the specification: in the epoch [e], once the training
    pass has completed, the evaluator is invoked exactly once on the full
    validation split, with the mean, the prediction and the standard
    deviation of every validation batch. *)
Definition evaluator_invoked_once (e : nat) (st : state Net Opt) : Prop :=
  forall tl st1,
    train_pass fw ds e st = (Ok tl, st1) ->
    validation_calls (trace (snd (epoch_body fw ds conf e st)))
    = validation_calls (trace st)
      ++ [(e, map mos (valloader ds e),
           predictions (net_eval fw (net st1)) (valloader ds e),
           map mos_std (valloader ds e))].

End Observe.

End Observe.

(** ** Further notions: what the pieces of the script keep and write *)

Module Frames.
Import Numpy Controller Observe.

Section Frames.

Context {Net Opt : Type}.
Variable ds : dataset.
Variable conf : config.

(** [keeps R m]: the state in which [m] ends, with a value or with an
    exception, is related by [R] to the one in which it starts. *)
Definition keeps (R : state Net Opt -> state Net Opt -> Prop) {A : Type}
    (m : M Net Opt A) : Prop :=
  forall st, R st (snd (m st)).

(** The number of optimizer steps in a trace. *)
Definition train_steps (tr : list (event Net)) : nat :=
  length (omap (fun ev => match ev with
                          | EvTrainStep e _ => Some e
                          | _ => None
                          end) tr).

(** [step] moves with the optimizer steps. *)
Definition step_counts (st st' : state Net Opt) : Prop :=
  (step st' + train_steps (trace st) = step st + train_steps (trace st'))%nat.

(** The epochs of the checkpoints of a trace, and the epochs of the updates
    announced by the printed lines, in order. *)
Definition checkpoint_epochs (tr : list (event Net)) : list nat :=
  omap (fun ev => match ev with
                  | EvCheckpoint e _ => Some e
                  | _ => None
                  end) tr.

Definition announced (out : list line) : list nat :=
  omap (fun ln => match ln with
                  | UpdateLine _ e => Some e
                  | _ => None
                  end) out.

(** The lines of one update of the best model, as printed and as written to
    the results file. *)
Definition update_lines (e : nat) (val_loss : float) (val_mv : measures)
    (test : test_vars) : list line :=
  let '(s, k, p, r, val_OR) := val_mv in
  [UpdateLine (EXP_ID conf) e; ValResults val_loss s k p r (val_OR * 100)]
  ++ match test with
     | Some (tl, (ts, tk, tp, tr, _), _) =>
         if tests_during_training conf
         then [TestResults tl ts tk tp tr (val_OR * 100)] else []
     | None => []
     end.

(** The files after one update of the best model on the network [n]. *)
Definition update_files (e : nat) (val_loss : float) (val_mv : measures)
    (test : test_vars) (n : Net) (files : gmap string (file Net))
  : gmap string (file Net) :=
  let txt := <[save_result_file conf +:+ ".txt"
               := TextFile (update_lines e val_loss val_mv test)]> files in
  let npy :=
    match test with
    | Some (tl, (ts, tk, tp, tr, OR), (sq, sd, q)) =>
        if tests_during_training conf
        then <[save_result_file conf +:+ ".npy"
               := NpyFile (TestRecord sq sd q tl ts tk tp tr OR (test_index ds))]> txt
        else txt
    | None => txt
    end in
  <[trained_model_file conf +:+ ".full" := FullModel n]>
    (<[trained_model_file conf := StateDict n]> npy).

(** The criterion is not NaN and is at most every validation loss, NaN
    apart, that an epoch past the first sixth has had. *)
Definition criterion_below_losses (st : state Net Opt) : Prop :=
  PyOrder.is_nan (best_val_criterion st) = false
  /\ forall i e n l b,
       trace st !! i = Some (EvGuard e n l b) ->
       past_sixth (n_epochs conf) e = true ->
       PyOrder.is_nan l = true \/ PyOrder.le (best_val_criterion st) l = true.

(** A best-model test followed by its checkpoint has a validation loss
    strictly below the one, NaN apart, of every earlier test of an epoch
    past the first sixth. *)
Definition checkpoints_beat_earlier (tr : list (event Net)) : Prop :=
  forall i j e' n' l' b' e n l b,
    tr !! i = Some (EvGuard e' n' l' b') ->
    tr !! j = Some (EvGuard e n l b) ->
    tr !! S j = Some (EvCheckpoint e n) ->
    (i < j)%nat ->
    past_sixth (n_epochs conf) e' = true ->
    PyOrder.is_nan l' = true \/ PyFloat.lt l l' = true.


End Frames.

End Frames.

(** ** A small framework, for running the script

    A network that only counts the optimizer steps it has taken, with a
    validation loss read from a table by that count and the first field of a
    batch as its prediction. *)

Module Toy.
Import Numpy Controller.

Definition scalar (x : float) : pyval := Seq [Num x].

Definition item0 (t : pyval) : float :=
  match t with
  | Num x => x
  | Seq (Num x :: _) => x
  | Seq _ => PrimFloat.nan
  end.

Definition add (a b : pyval) : pyval := scalar (item0 a + item0 b).

(** The sum of an array, its entries added from left to right. *)
Definition sum_left (a : list float) : float :=
  fold_left PrimFloat.add a 0.

(** The correlations are not what the runs below are about: a constant. *)
Definition corr (a b : list float) : option float := Some 1.

Definition toy (losses : list float) : framework nat unit :=
  Framework
    (fun n => n) (fun n => n)
    (fun n o data => (S n, o, 1))
    (fun n data => (scalar (nth (pred n) losses 0), patches data))
    (fun t => t) add item0
    corr corr corr sum_left.

(** One batch a split: the prediction (first field), then labels, mean and
    standard deviation of the subjective scores. *)
Definition one_batch (p m sd : float) : list batch :=
  [Batch (scalar p) (scalar 0) (scalar m) (scalar sd)].

Definition data : dataset :=
  Dataset (fun _ => one_batch 1 1 1)
          (fun _ => one_batch 5 1 1)
          (fun _ => one_batch 1 1 1)
          (Seq [Num 0]).

Definition conf (test : float) (during : bool) : config :=
  Config "0" "LIVE" "WaDIQaM-FR" 6 test during false.

(** Validation losses of the epochs 0 to 5. *)
Definition losses : list float := [0.25; 0.5; 2; 1; 0.75; 4].

Definition fw : framework nat unit := toy losses.

(** The run of the script from a network that has taken no step. *)
Definition run (test : float) (during : bool) : result unit * state nat unit :=
  main fw data (conf test during) (init_state 0%nat tt).

End Toy.

(** ** The configuration, before training *)

Module Setup.
Import Controller.

(** The exceptions of this part of the script. *)
Inductive error : Type :=
| KeyError (key : string)
| TypeError
| ValueError.

Inductive outcome (A : Type) : Type :=
| Done (a : A)
| Failed (e : error).
Arguments Done {A} a.
Arguments Failed {A} e.

Definition and_then {A B : Type} (o : outcome A) (k : A -> outcome B)
  : outcome B :=
  match o with
  | Done a => k a
  | Failed e => Failed e
  end.

Section Setup.

(** The objects [yaml.load] yields that are neither strings nor mappings:
    numbers, booleans, lists, [None]. *)
Variable Obj : Type.

(** A loaded value.  Of a mapping, the entries with a string as key are
    kept: the script looks up strings only. *)
Inductive value : Type :=
| VStr (s : string)
| VDict (d : gmap string value)
| VOther (o : Obj).

(** [conf.update(o)] for an object [o] that is neither a mapping nor a
    string: an exception, or the pairs of an iterable. *)
Variable update_other : gmap string value -> Obj -> outcome (gmap string value).

(** [conf[k]] *)
Definition lookup_key (conf : gmap string value) (k : string) : outcome value :=
  match conf !! k with
  | Some v => Done v
  | None => Failed (KeyError k)
  end.

(** [conf.update(x)]: the entries of a mapping replace those of [conf]; a
    string is iterated character by character, and a character is no pair. *)
Definition update (conf : gmap string value) (x : value)
  : outcome (gmap string value) :=
  match x with
  | VDict d => Done (d ∪ conf)
  | VStr EmptyString => Done conf
  | VStr _ => Failed ValueError
  | VOther o => update_other conf o
  end.

(** ['database: ' + x]: only a string can be appended to a string. *)
Definition as_str (x : value) : outcome string :=
  match x with
  | VStr s => Done s
  | _ => Failed TypeError
  end.

(** [sys.argv[k] if len(sys.argv) > k else d] *)
Definition argv_or (argv : list string) (k : nat) (d : string) : string :=
  match argv !! k with
  | Some a => a
  | None => d
  end.

(** [if len(sys.argv) > k: conf[key] = sys.argv[k]] *)
Definition override (argv : list string) (k : nat) (key : string)
    (conf : gmap string value) : gmap string value :=
  match argv !! k with
  | Some a => <[key := VStr a]> conf
  | None => conf
  end.

Definition overrides (argv : list string) (conf : gmap string value)
  : gmap string value :=
  override argv 4 "model" (override argv 3 "database" conf).

Record settings : Type := Settings {
  exp_id : string;
  conf_file : string;
  database_name : string;
  model_name : string;
  merged : gmap string value;
  test_ratio_value : value
}.

(** From the command line and the loaded file to [test_ratio]. *)
Definition setup (argv : list string) (loaded : value) : outcome settings :=
  let EXP_ID := argv_or argv 1 "0" in
  let conf_file := argv_or argv 2 "config.yaml" in
  match loaded with
  | VDict conf =>
      let conf := overrides argv conf in
      and_then (lookup_key conf "database") (fun database =>
      and_then (lookup_key conf "model") (fun model =>
      and_then (as_str database) (fun database =>
      and_then (as_str model) (fun model =>
      and_then (lookup_key conf database) (fun section =>
      and_then (update conf section) (fun conf =>
      and_then (lookup_key conf model) (fun section =>
      and_then (update conf section) (fun conf =>
      and_then (lookup_key conf "test_ratio") (fun test_ratio =>
      Done (Settings EXP_ID conf_file database model conf test_ratio))))))))))
  | _ => Failed TypeError
  end.

End Setup.

Arguments VStr {Obj}.
Arguments VDict {Obj}.
Arguments VOther {Obj}.
Arguments lookup_key {Obj}.
Arguments update {Obj}.
Arguments as_str {Obj}.
Arguments override {Obj}.
Arguments overrides {Obj}.
Arguments setup {Obj}.
Arguments exp_id {Obj}.
Arguments conf_file {Obj}.
Arguments database_name {Obj}.
Arguments model_name {Obj}.
Arguments merged {Obj}.
Arguments test_ratio_value {Obj}.

(** [if conf['test_ratio']:], the test under which the test loader and
    [test_index] are bound. *)
Definition testloader_bound (conf : config) : bool :=
  PyOrder.truthy (test_ratio conf).

End Setup.

(** Further data for the small framework. *)

Module ToyMore.
Import Numpy Controller.

(** A provider without validation images, and one without training images. *)
Definition no_val : dataset :=
  Dataset (fun _ => Toy.one_batch 1 1 1) (fun _ => [])
          (fun _ => Toy.one_batch 1 1 1) (Seq [Num 0]).

Definition no_train : dataset :=
  Dataset (fun _ => []) (fun _ => Toy.one_batch 5 1 1)
          (fun _ => Toy.one_batch 1 1 1) (Seq [Num 0]).

(** A provider with two validation batches. *)
Definition two_val : dataset :=
  Dataset (fun _ => Toy.one_batch 1 1 1)
          (fun _ => Toy.one_batch 5 1 1 ++ Toy.one_batch 6 2 1)
          (fun _ => Toy.one_batch 1 1 1) (Seq [Num 0]).

(** A configuration file with a section for a database and one for a model,
    numbers as its other objects. *)
Definition num (x : float) : Setup.value float := Setup.VOther x.

Definition live_section : gmap string (Setup.value float) :=
  list_to_map [("test_ratio", num 0.125); ("n_epochs", num 2000)].

Definition model_section : gmap string (Setup.value float) :=
  list_to_map [("n_epochs", num 1000)].

Definition top_level : gmap string (Setup.value float) :=
  list_to_map
    [("database", Setup.VStr "LIVE"); ("model", Setup.VStr "WaDIQaM-FR");
     ("n_epochs", num 3000); ("test_ratio", num 0);
     ("LIVE", Setup.VDict live_section);
     ("TID2008", Setup.VDict (list_to_map [("test_ratio", num 0.25)]));
     ("WaDIQaM-FR", Setup.VDict model_section)].

Definition loaded : Setup.value float := Setup.VDict top_level.

Definition not_iterable (conf : gmap string (Setup.value float)) (o : float)
  : Setup.outcome (gmap string (Setup.value float)) :=
  Setup.Failed Setup.TypeError.

End ToyMore.

(** * Properties *)

(** ** The order on floats is a strict partial order *)

Module PyFloatFacts.
Import PyFloat.

Lemma SFltb_irrefl (x : spec_float) : SFltb x x = false.
Proof.
  unfold SFltb, SFcompare.
  destruct x as [s | s | | s m e]; try reflexivity.
  - destruct s; reflexivity.
  - destruct s; rewrite Z.compare_refl, Pos.compare_cont_refl; reflexivity.
Qed.

Lemma pos_cont_lt (m1 m2 : positive) :
  Pos.compare_cont Eq m1 m2 = Lt <-> (m1 < m2)%positive.
Proof. reflexivity. Qed.

Lemma pos_cont_gt (m1 m2 : positive) :
  Pos.compare_cont Eq m1 m2 = Gt <-> (m2 < m1)%positive.
Proof. fold (Pos.compare m1 m2). rewrite Pos.compare_gt_iff. reflexivity. Qed.

Lemma lexlt_pos e1 m1 e2 m2 :
  match Z.compare e1 e2 with
  | Lt => Lt | Gt => Gt | Eq => Pos.compare_cont Eq m1 m2
  end = Lt <-> lexlt e1 m1 e2 m2.
Proof.
  unfold lexlt. destruct (Z.compare_spec e1 e2) as [He | He | He].
  - rewrite pos_cont_lt. split; [auto | intros [H | [_ H]]; [lia | exact H]].
  - split; [auto | reflexivity].
  - split; [discriminate | intros [H | [H _]]; lia].
Qed.

Lemma lexlt_neg e1 m1 e2 m2 :
  match Z.compare e1 e2 with
  | Lt => Gt | Gt => Lt | Eq => CompOpp (Pos.compare_cont Eq m1 m2)
  end = Lt <-> lexlt e2 m2 e1 m1.
Proof.
  unfold lexlt. destruct (Z.compare_spec e1 e2) as [He | He | He].
  - destruct (Pos.compare_cont Eq m1 m2) eqn:Hc; simpl.
    + apply Pos.compare_eq in Hc. subst. split; [discriminate |].
      intros [H | [_ H]]; [lia | exfalso; eapply Pos.lt_irrefl; eauto].
    + apply pos_cont_lt in Hc. split; [discriminate |].
      intros [H | [_ H]]; [lia | exfalso; eapply Pos.lt_irrefl, Pos.lt_trans; eauto].
    + apply pos_cont_gt in Hc. split; [auto | reflexivity].
  - split; [discriminate | intros [H | [H _]]; lia].
  - split; [auto | reflexivity].
Qed.

Lemma lexlt_trans e1 m1 e2 m2 e3 m3 :
  lexlt e1 m1 e2 m2 -> lexlt e2 m2 e3 m3 -> lexlt e1 m1 e3 m3.
Proof.
  unfold lexlt. intros [H1 | [H1 H1']] [H2 | [H2 H2']]; try (left; lia).
  right. split; [lia | eapply Pos.lt_trans; eauto].
Qed.

Lemma SFltb_trans (x y z : spec_float) :
  SFltb x y = true -> SFltb y z = true -> SFltb x z = true.
Proof.
  unfold SFltb.
  destruct (SFcompare x y) as [[ | | ] | ] eqn:Hxy; try discriminate.
  destruct (SFcompare y z) as [[ | | ] | ] eqn:Hyz; try discriminate.
  intros _ _.
  assert (Hgoal : SFcompare x z = Some Lt); [| rewrite Hgoal; reflexivity].
  destruct x as [sx | sx | | sx mx ex], y as [sy | sy | | sy my ey],
    z as [sz | sz | | sz mz ez]; simpl in *;
    try discriminate; try reflexivity;
    repeat match goal with
           | s : bool |- _ => destruct s
           end; simpl in *; try discriminate; try reflexivity.
  - injection Hxy as Hxy. injection Hyz as Hyz. f_equal.
    apply lexlt_neg in Hxy. apply lexlt_neg in Hyz. apply lexlt_neg.
    eapply lexlt_trans; eauto.
  - injection Hxy as Hxy. injection Hyz as Hyz. f_equal.
    apply lexlt_pos in Hxy. apply lexlt_pos in Hyz. apply lexlt_pos.
    eapply lexlt_trans; eauto.
Qed.

Lemma lt_irrefl (a : float) : lt a a = false.
Proof. unfold lt. rewrite ltb_spec. apply SFltb_irrefl. Qed.

Lemma lt_trans (a b c : float) : lt a b = true -> lt b c = true -> lt a c = true.
Proof. unfold lt. rewrite !ltb_spec. apply SFltb_trans. Qed.

Lemma lt_asym (a b : float) : lt a b = true -> lt b a = false.
Proof.
  intros H. destruct (lt b a) eqn:Hba; [| reflexivity].
  rewrite <- (lt_irrefl a). symmetry. eapply lt_trans; eauto.
Qed.

End PyFloatFacts.

(** ** The evaluator *)

Module NumpyFacts.
Import Numpy.

Lemma broadcast_same_length {A B C : Type} (f : A -> B -> C)
    (a : list A) (b : list B) :
  length a = length b -> broadcast f a b = Some (zip_with f a b).
Proof. intros H. unfold broadcast. rewrite H, Nat.eqb_refl. reflexivity. Qed.

Lemma squares_zip (a p : list float) :
  map (fun x => x * x) (zip_with PrimFloat.sub a p)
  = map (fun '(s, p) => (s - p) * (s - p)) (combine a p).
Proof.
  revert p. induction a as [| x a IH]; intros [| y p]; simpl; try reflexivity.
  rewrite IH. reflexivity.
Qed.

Lemma outliers_zip (a p sd : list float) :
  zip_with gt (map PrimFloat.abs (zip_with PrimFloat.sub a p))
              (map (fun s => 2 * s) sd)
  = map is_outlier (combine (combine a p) sd).
Proof.
  revert p sd.
  induction a as [| x a IH]; intros [| y p] [| z sd]; simpl; try reflexivity.
  rewrite IH. reflexivity.
Qed.

Lemma count_true_map {A : Type} (f : A -> bool) (l : list A) :
  length (filter (fun x => Is_true x) (map f l))
  = length (filter (fun it => Is_true (f it)) l).
Proof.
  induction l as [| x l IH]; [reflexivity |].
  simpl. rewrite !filter_cons. destruct (f x); simpl; rewrite IH; reflexivity.
Qed.

Lemma reshape_flat_array (v : pyval) (s : list nat) :
  shape_of v = Some s -> reshape_flat v = Some (ravel v).
Proof. intros H. unfold reshape_flat. rewrite H. reflexivity. Qed.

Lemma reshape_flat_flat (l : list float) : reshape_flat (flat l) = Some l.
Proof.
  assert (Hr : forall l, ravel (flat l) = l).
  { intros l0. induction l0 as [| x l0 IH]; [reflexivity |].
    simpl in *. rewrite IH. reflexivity. }
  assert (Hs : forall l, shape_of (flat l) = Some [length l]).
  { intros l0. unfold flat. simpl. rewrite map_map. simpl.
    destruct l0 as [| x l0]; [reflexivity |]. simpl.
    replace (forallb _ _) with true; [rewrite length_map; reflexivity |].
    symmetry. apply forallb_forall. intros o Ho.
    apply in_map_iff in Ho as [_ [<- _]]. apply bool_decide_eq_true. reflexivity. }
  unfold reshape_flat. rewrite Hs, Hr. reflexivity.
Qed.

(** C2: on score sequences of equal length, with standard deviations of the
    same length, [measure] returns the five values in the order Spearman
    correlation, Kendall correlation, Pearson correlation (each as SciPy
    gives it), the square root of the mean of [(sq - q)^2], and the fraction
    of items with [|sq - q| > 2 * sq_std]. *)
Theorem measure_five_values
    (spearmanr kendalltau pearsonr : list float -> list float -> option float)
    (add_reduce : list float -> float)
    (sq q sq_std : pyval) (a p sd : list float) (s k r : float) :
  reshape_flat sq = Some a ->
  reshape_flat q = Some p ->
  reshape_flat sq_std = Some sd ->
  length a = length p ->
  length sd = length a ->
  spearmanr a p = Some s ->
  kendalltau a p = Some k ->
  pearsonr a p = Some r ->
  measure spearmanr kendalltau pearsonr add_reduce sq q sq_std
  = Some (s, k, r, rmse_spec add_reduce a p, outlier_ratio_spec a p sd).
Proof.
  intros Ha Hp Hsd Hlen Hlen' Hs Hk Hr.
  unfold measure. rewrite Ha, Hsd, Hp. simpl.
  rewrite Hs, Hk, Hr. simpl.
  rewrite (broadcast_same_length PrimFloat.sub a p Hlen). simpl.
  rewrite broadcast_same_length.
  2:{ rewrite !length_map, length_zip_with. lia. }
  simpl. unfold rmse_spec, outlier_ratio_spec, mean_bool.
  rewrite squares_zip, outliers_zip, count_true_map.
  rewrite length_map, !length_combine.
  replace ((length a `min` length p) `min` length sd)%nat with (length a) by lia.
  reflexivity.
Qed.

(** Three items with errors 0, 1 and 4: two outliers in three. *)
Lemma measure_five_values_witness :
  measure Toy.corr Toy.corr Toy.corr Toy.sum_left
          (flat [1; 2; 4]) (flat [1; 3; 8]) (flat [0.25; 0.25; 1])
  = Some (1, 1, 1,
          rmse_spec Toy.sum_left [1; 2; 4] [1; 3; 8],
          outlier_ratio_spec [1; 2; 4] [1; 3; 8] [0.25; 0.25; 1]).
Proof.
  apply (measure_five_values Toy.corr Toy.corr Toy.corr Toy.sum_left
           (flat [1; 2; 4]) (flat [1; 3; 8]) (flat [0.25; 0.25; 1])
           [1; 2; 4] [1; 3; 8] [0.25; 0.25; 1] 1 1 1);
    reflexivity.
Defined.

(** C10: [measure] sees its three inputs only through their flattening:
    inputs with the same flattened sequences, whatever their nesting or
    shape, give the same results. *)
Theorem measure_shape_invariant
    (spearmanr kendalltau pearsonr : list float -> list float -> option float)
    (add_reduce : list float -> float)
    (sq q sq_std sq' q' sq_std' : pyval) :
  reshape_flat sq = reshape_flat sq' ->
  reshape_flat q = reshape_flat q' ->
  reshape_flat sq_std = reshape_flat sq_std' ->
  measure spearmanr kendalltau pearsonr add_reduce sq q sq_std
  = measure spearmanr kendalltau pearsonr add_reduce sq' q' sq_std'.
Proof.
  intros Hsq Hq Hsd. unfold measure. rewrite Hsq, Hq, Hsd. reflexivity.
Qed.

(** A flat list of four scores against 2x2 and 2x2x1 arrays. *)
Lemma measure_shape_invariant_witness :
  measure Toy.corr Toy.corr Toy.corr Toy.sum_left
          (flat [1; 2; 4; 8]) (flat [1; 3; 8; 8]) (flat [0.25; 0.25; 1; 1])
  = measure Toy.corr Toy.corr Toy.corr Toy.sum_left
          (Seq [flat [1; 2]; flat [4; 8]])
          (Seq [Seq [flat [1]; flat [3]]; Seq [flat [8]; flat [8]]])
          (Seq [flat [0.25]; flat [0.25]; flat [1]; flat [1]]).
Proof.
  apply (measure_shape_invariant Toy.corr Toy.corr Toy.corr Toy.sum_left);
    reflexivity.
Defined.

End NumpyFacts.

(** ** The controller *)

Module ControllerFacts.
Import Numpy Controller Observe.

Section Facts.

Context {Net Opt : Type}.
Variable fw : framework Net Opt.
Variable ds : dataset.
Variable conf : config.

Local Abbreviation state := (state Net Opt).
Local Abbreviation M := (M Net Opt).
Local Abbreviation event := (event Net).

(** *** Sequencing *)

Lemma bind_eq {A B : Type} (m : M A) (k : A -> M B) (st : state) :
  bind m k st = match m st with
                | (Ok a, st1) => k a st1
                | (Raise e, st1) => (Raise e, st1)
                end.
Proof. reflexivity. Qed.

Lemma for_range_app (body : nat -> M unit) (es1 es2 : list nat) (st : state) :
  for_range (es1 ++ es2) body st
  = match for_range es1 body st with
    | (Ok _, st1) => for_range es2 body st1
    | (Raise e, st1) => (Raise e, st1)
    end.
Proof.
  revert st. induction es1 as [| e es1 IH]; intros st; simpl; [reflexivity |].
  rewrite !bind_eq. destruct (body e st) as [[[] | x] st1]; [apply IH | reflexivity].
Qed.

Lemma for_range_snoc (body : nat -> M unit) (es : list nat) (e : nat) (st : state) :
  for_range (es ++ [e]) body st
  = match for_range es body st with
    | (Ok _, st1) => body e st1
    | (Raise x, st1) => (Raise x, st1)
    end.
Proof.
  rewrite for_range_app. destruct (for_range es body st) as [[[] | x] st1];
    [| reflexivity].
  simpl. rewrite bind_eq. destruct (body e st1) as [[[] | x] st2]; reflexivity.
Qed.

(** A property of the state kept by every iteration is kept by the loop,
    however it ends. *)
Lemma for_range_invariant (P : state -> Prop) (body : nat -> M unit) :
  (forall e st, P st -> P (snd (body e st))) ->
  forall es st, P st -> P (snd (for_range es body st)).
Proof.
  intros Hbody es. induction es as [| e es IH]; intros st HP; simpl; [exact HP |].
  rewrite bind_eq. specialize (Hbody e st HP).
  destruct (body e st) as [[[] | x] st1]; simpl in *; [apply IH |]; exact Hbody.
Qed.

(** *** What a piece of the script leaves untouched *)

Lemma emits_refl (st : state) : emits st st [].
Proof. unfold emits. rewrite app_nil_r. auto. Qed.

Lemma emits_trans (st1 st2 st3 : state) (evs1 evs2 : list event) :
  emits st1 st2 evs1 -> emits st2 st3 evs2 -> emits st1 st3 (evs1 ++ evs2).
Proof.
  unfold emits. intros (Hb1 & Hf1 & Ho1 & Ht1) (Hb2 & Hf2 & Ho2 & Ht2).
  rewrite Hb2, Hf2, Ho2, Ht2, Ht1, app_assoc. auto.
Qed.

(** *** The training pass *)

Lemma train_batch_spec (e : nat) (data : batch) (L : float) (st : state) :
  exists L' st',
    train_batch fw e data L st = (Ok L', st')
    /\ emits st st' [EvTrainStep e data]
    /\ var_i st' = var_i st.
Proof.
  unfold train_batch. cbv [bind gets].
  destruct (train_step fw (net st) (opt st) data) as [[n' o'] loss].
  cbv [bind modify emit ret]. eexists _, _. split; [reflexivity |].
  unfold emits. simpl. auto.
Qed.

Lemma train_loop_spec (e : nat) (bs : list batch) :
  forall (k : nat) (L : float) (st : state),
  exists L' st',
    for_enumerate k bs (train_batch fw e) L st = (Ok L', st')
    /\ emits st st' (map (EvTrainStep e) bs)
    /\ (bs <> [] \/ is_Some (var_i st) -> is_Some (var_i st')).
Proof.
  induction bs as [| data bs IH]; intros k L st; cbn [for_enumerate map].
  - exists L, st. split; [reflexivity |]. split; [apply emits_refl |].
    intros [H | H]; [congruence | exact H].
  - cbv [bind modify].
    destruct (train_batch_spec e data L (set_var_i (Some k) st))
      as (L1 & st1 & Hrun & Hem & Hi).
    rewrite Hrun.
    destruct (IH (S k) L1 st1) as (L' & st' & Hloop & Hem' & Hi').
    exists L', st'. split; [exact Hloop |]. split.
    + apply (emits_trans st st1 st' [EvTrainStep e data] _); [| exact Hem'].
      destruct Hem as (Hb & Hf & Ho & Ht). unfold emits. simpl in *. auto.
    + intros _. apply Hi'. right. rewrite Hi. simpl. eauto.
Qed.

Lemma train_pass_spec (e : nat) (st : state) :
  exists r st',
    train_pass fw ds e st = (r, st')
    /\ emits st st' (map (EvTrainStep e) (trainloader ds e))
    /\ (trainloader ds e <> [] -> exists train_loss, r = Ok train_loss).
Proof.
  unfold train_pass. cbv [bind modify].
  destruct (train_loop_spec e (trainloader ds e) 0 0%float
              (set_net (net_train fw (net st)) st))
    as (L & st1 & Hloop & Hem & Hi).
  rewrite Hloop. unfold read_i.
  assert (Hem0 : emits st st1 (map (EvTrainStep e) (trainloader ds e))).
  { destruct Hem as (Hb & Hf & Ho & Ht). unfold emits. simpl in *. auto. }
  destruct (var_i st1) as [i |] eqn:Hvi.
  - eexists _, _. split; [reflexivity |]. split; [exact Hem0 | eauto].
  - eexists _, _. split; [reflexivity |]. split; [exact Hem0 |].
    intros Hne. destruct Hi as [i Hi]; [left; exact Hne | congruence].
Qed.

(** *** The validation and test passes *)

Lemma eval_batch_spec (data : batch) (L : option pyval)
    (q sq sq_std : list pyval) (st : state) :
  eval_batch fw data (L, q, sq, sq_std) st
  = (Ok (iadd fw L (fst (forward fw (net st) data)),
         q ++ [snd (forward fw (net st) data)],
         sq ++ [mos data], sq_std ++ [mos_std data]), st).
Proof.
  unfold eval_batch, index, getitem. cbn [batch_items lookup list_lookup].
  cbv [bind gets ret]. destruct (forward fw (net st) data) as [o0 o3].
  reflexivity.
Qed.

Lemma eval_loop_spec (bs : list batch) :
  forall (k : nat) (L : option pyval) (q sq sq_std : list pyval) (st : state),
  exists L' st',
    for_enumerate k bs (eval_batch fw) (L, q, sq, sq_std) st
    = (Ok (L', q ++ predictions fw (net st) bs,
           sq ++ map mos bs, sq_std ++ map mos_std bs), st')
    /\ emits st st' []
    /\ net st' = net st
    /\ (bs <> [] \/ is_Some L -> is_Some L')
    /\ (bs <> [] \/ is_Some (var_i st) -> is_Some (var_i st')).
Proof.
  induction bs as [| data bs IH]; intros k L q sq sq_std st;
    cbn [for_enumerate map]; unfold predictions; cbn [map].
  - exists L, st. rewrite !app_nil_r. split; [reflexivity |].
    split; [apply emits_refl |]. split; [reflexivity |].
    split; (intros [H | H]; [congruence | exact H]).
  - cbv [bind modify]. rewrite eval_batch_spec.
    destruct (IH (S k) (iadd fw L (fst (forward fw (net (set_var_i (Some k) st)) data)))
                (q ++ [snd (forward fw (net (set_var_i (Some k) st)) data)])
                (sq ++ [mos data]) (sq_std ++ [mos_std data])
                (set_var_i (Some k) st))
      as (L' & st' & Hloop & Hem & Hnet & HL & Hi).
    exists L', st'. rewrite Hloop. unfold predictions. cbn [net set_var_i].
    rewrite <- !app_assoc. split; [reflexivity |].
    split; [| split; [exact Hnet |]].
    + destruct Hem as (Hb & Hf & Ho & Ht). unfold emits. simpl in *. auto.
    + split; intros _; [apply HL | apply Hi]; right.
      * destruct L; simpl; eauto.
      * simpl. eauto.
Qed.

Lemma eval_pass_spec (e : nat) (sp : split) (bs : list batch) (st : state) :
  exists r st',
    eval_pass fw e sp bs st = (r, st')
    /\ net st' = net st
    /\ ((bs = [] /\ r = Raise TypeError /\ emits st st' [])
        \/ (bs <> []
            /\ emits st st' [EvMeasure e sp (map mos bs)
                                       (predictions fw (net st) bs)
                                       (map mos_std bs)]
            /\ match measured fw (net st) bs with
               | Some mv =>
                   exists loss,
                     r = Ok (loss, mv, (map mos bs, map mos_std bs,
                                        predictions fw (net st) bs))
               | None => r = Raise ValueError
               end)).
Proof.
  destruct bs as [| data bs].
  - exists (Raise TypeError), st. split; [reflexivity |].
    split; [reflexivity |]. left. auto using emits_refl.
  - set (bs' := data :: bs).
    destruct (eval_loop_spec bs' 0 None [] [] [] st)
      as (L & st1 & Hloop & Hem & Hnet & HL & Hi).
    destruct HL as [t ->]; [left; discriminate |].
    destruct Hi as [i Hi]; [left; discriminate |].
    unfold eval_pass. cbv [bind]. rewrite Hloop. cbn [app].
    cbv [ret read_i]. rewrite Hi. unfold call_measure. cbv [bind emit modify].
    fold (measured fw (net st) bs').
    destruct Hem as (Hb & Hf & Ho & Ht). rewrite app_nil_r in Ht.
    destruct (measured fw (net st) bs') as [mv |] eqn:Hm.
    + eexists _, _. split; [reflexivity |]. split; [exact Hnet |].
      right. split; [discriminate |]. split; [| eauto].
      unfold emits. simpl. rewrite Ht. auto.
    + eexists _, _. split; [reflexivity |]. split; [exact Hnet |].
      right. split; [discriminate |]. split; [| reflexivity].
      unfold emits. simpl. rewrite Ht. auto.
Qed.

(** *** The passes of an epoch *)

Lemma passes_frame (e : nat) (st : state) :
  exists r st',
    passes fw ds conf e st = (r, st')
    /\ quiet_step st st'
    /\ (forall tl vl mv test,
          r = Ok (tl, vl, mv, test) ->
          tests_during_training conf = true -> is_Some test).
Proof.
  unfold passes. cbv [bind].
  destruct (train_pass_spec e st) as (r1 & st1 & H1 & Hem1 & _). rewrite H1.
  assert (Hq1 : quiet_step st st1).
  { eexists. split; [exact Hem1 |]. apply Forall_forall.
    intros ev Hev. apply list_elem_of_fmap in Hev as (b & -> & _). exact I. }
  destruct r1 as [tl | x]; [| eexists _, _; split; [reflexivity |]; split; [exact Hq1 | discriminate]].
  cbv [modify].
  set (st1' := set_net (net_eval fw (net st1)) st1).
  destruct (eval_pass_spec e ValSplit (valloader ds e) st1')
    as (r2 & st2 & H2 & _ & Hcase2). rewrite H2.
  assert (Hq2 : quiet_step st st2).
  { destruct Hq1 as (evs1 & Hem & Hquiet).
    destruct Hcase2 as [(_ & _ & Hem2) | (_ & Hem2 & _)].
    - exists (evs1 ++ []). split; [| rewrite app_nil_r; exact Hquiet].
      eapply emits_trans; [| exact Hem2].
      destruct Hem as (Hb & Hf & Ho & Ht). unfold emits. simpl. auto.
    - eexists (evs1 ++ [_]). split.
      + eapply emits_trans; [| exact Hem2].
        destruct Hem as (Hb & Hf & Ho & Ht). unfold emits. simpl. auto.
      + apply Forall_app. split; [exact Hquiet |]. repeat constructor. }
  destruct r2 as [[[vl mv] lists] | x];
    [| eexists _, _; split; [reflexivity |]; split; [exact Hq2 | discriminate]].
  set (st2' := set_var_val_OR (Some (snd mv)) st2).
  destruct (tests_during_training conf) eqn:Htest.
  - destruct (eval_pass_spec e TestSplit (testloader ds e) st2')
      as (r3 & st3 & H3 & _ & Hcase3). cbv [bind]. rewrite H3.
    assert (Hq3 : quiet_step st st3).
    { destruct Hq2 as (evs2 & Hem & Hquiet).
      destruct Hcase3 as [(_ & _ & Hem3) | (_ & Hem3 & _)].
      - exists (evs2 ++ []). split; [| rewrite app_nil_r; exact Hquiet].
        eapply emits_trans; [| exact Hem3].
        destruct Hem as (Hb & Hf & Ho & Ht). unfold emits. simpl. auto.
      - eexists (evs2 ++ [_]). split.
        + eapply emits_trans; [| exact Hem3].
          destruct Hem as (Hb & Hf & Ho & Ht). unfold emits. simpl. auto.
        + apply Forall_app. split; [exact Hquiet |]. repeat constructor. }
    destruct r3 as [t | x]; cbv [ret]; eexists _, _;
      (split; [reflexivity |]); (split; [exact Hq3 |]); [| discriminate].
    intros tl' vl' mv' test' Heq _. injection Heq as _ _ _ <-. eauto.
  - cbv [ret]. eexists _, _. split; [reflexivity |]. split.
    + destruct Hq2 as (evs2 & Hem & Hquiet). exists evs2. split; [| exact Hquiet].
      destruct Hem as (Hb & Hf & Ho & Ht). unfold emits. simpl. auto.
    + intros tl' vl' mv' test' _ H. discriminate.
Qed.

Lemma quiet_step_refl (st : state) : quiet_step st st.
Proof. exists []. split; [apply emits_refl | constructor]. Qed.

Lemma quiet_step_trans (st1 st2 st3 : state) :
  quiet_step st1 st2 -> quiet_step st2 st3 -> quiet_step st1 st3.
Proof.
  intros (evs1 & Hem1 & Hq1) (evs2 & Hem2 & Hq2). exists (evs1 ++ evs2).
  split; [eapply emits_trans; eauto | apply Forall_app; auto].
Qed.

Lemma scalar_quiet (st st' : state) : scalar_step st st' -> quiet_step st st'.
Proof.
  intros (evs & Hem & Hs). exists evs. split; [exact Hem |].
  eapply Forall_impl; [exact Hs |]. intros []; simpl; tauto.
Qed.

Lemma scalar_step_trans (st1 st2 st3 : state) :
  scalar_step st1 st2 -> scalar_step st2 st3 -> scalar_step st1 st3.
Proof.
  intros (evs1 & Hem1 & Hq1) (evs2 & Hem2 & Hq2). exists (evs1 ++ evs2).
  split; [eapply emits_trans; eauto | apply Forall_app; auto].
Qed.

Lemma log_measures_spec (logger : split) (e : nat) (loss : float)
    (mv : measures) (st : state) :
  exists st', log_measures logger e loss mv st = (Ok tt, st')
              /\ scalar_step st st' /\ net st' = net st.
Proof.
  destruct mv as [[[[s k] p] r] o]. unfold log_measures.
  cbv [bind emit modify]. eexists. split; [reflexivity |]. split; [| reflexivity].
  eexists [_; _; _; _; _; _]. split.
  - unfold emits. simpl. rewrite <- !app_assoc. simpl. auto.
  - repeat constructor.
Qed.

Lemma tensorboard_spec (e : nat) (train_loss val_loss : float)
    (mv : measures) (test : test_vars) (st : state) :
  exists r st',
    tensorboard conf e train_loss val_loss mv test st = (r, st')
    /\ scalar_step st st'
    /\ net st' = net st
    /\ ((tests_during_training conf = true -> is_Some test) -> r = Ok tt).
Proof.
  unfold tensorboard. destruct (enableTensorboard conf).
  2:{ exists (Ok tt), st. split; [reflexivity |].
      split; [exists []; split; [apply emits_refl | constructor] | auto]. }
  cbv [bind]. cbn [emit modify].
  set (st1 := set_trace _ st).
  assert (Hq1 : scalar_step st st1).
  { exists [EvScalar TrainSplit "loss: " train_loss e].
    split; [| repeat constructor]. unfold emits. simpl. auto. }
  destruct (log_measures_spec ValSplit e val_loss mv st1) as (st2 & H2 & Hq2 & Hn2).
  rewrite H2.
  assert (Hq : scalar_step st st2) by (eapply scalar_step_trans; eauto).
  assert (Hn : net st2 = net st) by exact Hn2.
  destruct (tests_during_training conf).
  2:{ exists (Ok tt), st2. split; [reflexivity |]. split; [exact Hq |]. split; auto. }
  destruct test as [[[test_loss tmv] lists] |]; cbv [read_test ret raise].
  - destruct (log_measures_spec TestSplit e test_loss tmv st2) as (st3 & H3 & Hq3 & Hn3).
    rewrite H3. exists (Ok tt), st3. split; [reflexivity |].
    split; [eapply scalar_step_trans; eauto |]. split; [congruence | auto].
  - eexists _, st2. split; [reflexivity |]. split; [exact Hq |]. split; [exact Hn |].
    intros H. destruct (H eq_refl) as [t Ht]. discriminate.
Qed.

(** *** The best-model update *)

Lemma full_path_differs (s : string) : s <> s +:+ ".full".
Proof.
  induction s as [| c s IH]; simpl; [discriminate |].
  intros H. injection H as H. exact (IH H).
Qed.

Lemma update_best_model_spec (e : nat) (l : float) (mv : measures)
    (test : test_vars) (st : state) :
  (tests_during_training conf = true -> is_Some test) ->
  exists st',
    update_best_model ds conf e l mv test st = (Ok tt, st')
    /\ net st' = net st
    /\ if PyFloat.lt l (best_val_criterion st) && past_sixth (n_epochs conf) e
       then trace st' = trace st ++ [EvGuard e (net st) l (best_val_criterion st);
                                     EvCheckpoint e (net st)]
            /\ best_val_criterion st' = l
            /\ fs st' !! trained_model_file conf = Some (StateDict (net st))
            /\ fs st' !! (trained_model_file conf +:+ ".full")
               = Some (FullModel (net st))
       else trace st' = trace st ++ [EvGuard e (net st) l (best_val_criterion st)]
            /\ best_val_criterion st' = best_val_criterion st
            /\ fs st' = fs st
            /\ stdout st' = stdout st.
Proof.
  intros Htest. destruct mv as [[[[s k] p] r] o]. unfold update_best_model.
  cbv [bind gets emit modify].
  destruct (PyFloat.lt l (best_val_criterion st) && past_sixth (n_epochs conf) e).
  2:{ eexists. split; [reflexivity |]. simpl. auto. }
  cbv [print write_file write_line modify].
  destruct (tests_during_training conf).
  - destruct (Htest eq_refl) as [[[tl [[[[ts tk] tp] tr] to]] [[sq sd] q]] ->].
    cbv [read_test ret bind print write_file write_line modify emit].
    eexists. split; [reflexivity |]. simpl.
    split; [reflexivity |]. rewrite <- app_assoc. simpl.
    split; [reflexivity |]. split; [reflexivity |].
    split; [| apply lookup_insert_eq].
    rewrite lookup_insert_ne by (symmetry; apply full_path_differs).
    apply lookup_insert_eq.
  - cbv [ret bind emit modify]. eexists. split; [reflexivity |]. simpl.
    split; [reflexivity |]. rewrite <- app_assoc. simpl.
    split; [reflexivity |]. split; [reflexivity |].
    split; [| apply lookup_insert_eq].
    rewrite lookup_insert_ne by (symmetry; apply full_path_differs).
    apply lookup_insert_eq.
Qed.

(** *** One epoch *)

Lemma epoch_body_spec (e : nat) (st : state) :
  exists pre,
    Forall quiet pre
    /\ epoch_step conf e st (snd (epoch_body fw ds conf e st)) pre.
Proof.
  unfold epoch_body. cbv [bind].
  destruct (passes_frame e st) as (r1 & st1 & H1 & (evs1 & Hem1 & Hq1) & Htest).
  rewrite H1. destruct r1 as [[[[tl vl] mv] test] | x].
  2:{ exists evs1. split; [exact Hq1 | left; exact Hem1]. }
  specialize (Htest tl vl mv test eq_refl).
  destruct (tensorboard_spec e tl vl mv test st1)
    as (r2 & st2 & H2 & Hs2 & Hn2 & Hok).
  apply scalar_quiet in Hs2 as (evs2 & Hem2 & Hq2).
  rewrite H2, (Hok Htest).
  destruct (update_best_model_spec e vl mv test st2 Htest) as (st3 & H3 & Hn3 & Hup).
  rewrite H3. cbn [snd].
  pose proof (emits_trans _ _ _ _ _ Hem1 Hem2) as (Hb & Hf & Ho & Ht).
  exists (evs1 ++ evs2). split; [apply Forall_app; auto |].
  right. exists vl. rewrite Hb in Hup. rewrite Hn3.
  destruct (PyFloat.lt vl (best_val_criterion st) && past_sixth (n_epochs conf) e).
  - destruct Hup as (Ht3 & Hb3 & Hf3 & Hf3'). rewrite Ht3, Ht, <- app_assoc. auto.
  - destruct Hup as (Ht3 & Hb3 & Hf3 & _). rewrite Ht3, Ht, Hf3, Hf, <- app_assoc. auto.
Qed.

(** *** The invariant of the loop over the epochs *)

Lemma quiet_not_checkpoint (pre : list event) (e : nat) (n : Net) :
  Forall quiet pre -> EvCheckpoint e n ∈ pre -> False.
Proof. intros Hq Hin. exact (proj1 (Forall_forall _ _) Hq _ Hin). Qed.

Lemma quiet_not_guard (pre : list event) (e : nat) (n : Net) (l b : float) :
  Forall quiet pre -> EvGuard e n l b ∈ pre -> False.
Proof. intros Hq Hin. exact (proj1 (Forall_forall _ _) Hq _ Hin). Qed.

Lemma quiet_no_checkpoint (pre : list event) :
  Forall quiet pre -> no_checkpoint pre.
Proof.
  intros Hq. eapply Forall_impl; [exact Hq |]. intros []; simpl; tauto.
Qed.

Lemma checkpoint_at_extend (tr ext : list event) (e : nat) (n : Net)
    (l b : float) (tr2 : list event) :
  checkpoint_at tr e n l b tr2 -> checkpoint_at (tr ++ ext) e n l b (tr2 ++ ext).
Proof.
  intros [tr1 ->]. exists tr1. rewrite <- !app_assoc. reflexivity.
Qed.

(** The three parts of the invariant, when the trace grows by events among
    which there is no checkpoint. *)
Lemma justified_extend (tr ext : list event) :
  no_checkpoint ext -> checkpoints_justified conf tr ->
  checkpoints_justified conf (tr ++ ext).
Proof.
  intros Hno Hj e n Hin. apply elem_of_app in Hin as [Hin | Hin].
  - destruct (Hj e n Hin) as (Hp & l & b & tr2 & Hat & Hlt).
    split; [exact Hp |]. exists l, b, (tr2 ++ ext).
    split; [apply checkpoint_at_extend; exact Hat | exact Hlt].
  - exfalso. exact (proj1 (Forall_forall _ _) Hno _ Hin I).
Qed.

Lemma tracks_extend (st st' : state) (ext : list event) :
  no_checkpoint ext ->
  trace st' = trace st ++ ext ->
  best_val_criterion st' = best_val_criterion st ->
  fs st' = fs st ->
  criterion_tracks conf st -> criterion_tracks conf st'.
Proof.
  intros Hno Ht Hb Hf [(Hnc & Hbest & Hfile) | (e & n & l & b & tr2 & Hat & Hnc & H)].
  - left. rewrite Ht, Hb, Hf. split; [apply Forall_app; auto | auto].
  - right. exists e, n, l, b, (tr2 ++ ext). rewrite Ht, Hb, Hf.
    split; [apply checkpoint_at_extend; exact Hat |].
    split; [apply Forall_app; auto | exact H].
Qed.

Lemma epoch_step_inv (e : nat) (st st' : state) (pre : list event) :
  Forall quiet pre -> epoch_step conf e st st' pre -> run_inv conf st ->
  run_inv conf st'.
Proof.
  intros Hq Hstep (Hj & Htr & Hbd).
  pose proof (quiet_no_checkpoint pre Hq) as Hnc.
  destruct Hstep as [(Hb & Hf & _ & Ht) | [l Hstep]].
  - (* the epoch stopped before the test *)
    split; [rewrite Ht; apply justified_extend; auto |].
    split; [eapply tracks_extend; eauto |].
    intros e0 n0 l0 b0 Hin Hp. rewrite Hb. rewrite Ht in Hin.
    apply elem_of_app in Hin as [Hin | Hin]; [eauto |].
    exfalso. eapply quiet_not_guard; eauto.
  - destruct (PyFloat.lt l (best_val_criterion st)) eqn:Hlt;
      destruct (past_sixth (n_epochs conf) e) eqn:Hpast; cbn [andb] in Hstep.
    1:{ (* the checkpoint is written *)
      destruct Hstep as (Ht & Hb & Hf & Hf').
      assert (Hat : checkpoint_at (trace st') e (net st') l (best_val_criterion st) []).
      { exists (trace st ++ pre). rewrite Ht, <- !app_assoc. reflexivity. }
      split; [| split].
      - intros e0 n0 Hin. rewrite Ht in Hin.
        apply elem_of_app in Hin as [Hin | Hin].
        + destruct (Hj e0 n0 Hin) as (Hp & l0 & b0 & tr2 & Hat0 & Hlt0).
          split; [exact Hp |]. exists l0, b0, (tr2 ++ pre ++ [EvGuard e (net st') l (best_val_criterion st); EvCheckpoint e (net st')]).
          rewrite Ht. split; [apply checkpoint_at_extend; exact Hat0 | exact Hlt0].
        + apply elem_of_app in Hin as [Hin | Hin];
            [exfalso; eapply quiet_not_checkpoint; eauto |].
          apply elem_of_cons in Hin as [Hin | Hin]; [discriminate |].
          apply list_elem_of_singleton in Hin. injection Hin as -> ->.
          split; [exact Hpast |]. eauto.
      - right. exists e, (net st'), l, (best_val_criterion st), [].
        split; [exact Hat |]. split; [constructor |]. split; [exact Hb |].
        split; [| auto].
        destruct Htr as [(_ & Hbest & _) | (e0 & n0 & l0 & b0 & tr2 & _ & _ & Hbest & Hl0 & _)].
        + rewrite <- Hbest. exact Hlt.
        + eapply PyFloatFacts.lt_trans; [exact Hlt |]. rewrite Hbest. exact Hl0.
      - intros e0 n0 l0 b0 Hin Hp. rewrite Hb. rewrite Ht in Hin.
        apply elem_of_app in Hin as [Hin | Hin].
        + destruct (PyFloat.lt l0 l) eqn:Hl0; [| reflexivity].
          rewrite <- (Hbd e0 n0 l0 b0 Hin Hp). symmetry.
          eapply PyFloatFacts.lt_trans; eauto.
        + apply elem_of_app in Hin as [Hin | Hin];
            [exfalso; eapply quiet_not_guard; eauto |].
          apply elem_of_cons in Hin as [Hin | Hin].
          * injection Hin as -> -> -> ->. apply PyFloatFacts.lt_irrefl.
          * apply list_elem_of_singleton in Hin. discriminate. }
    all: (* the test fails *)
      destruct Hstep as (Ht & Hb & Hf);
      assert (Hno : no_checkpoint (pre ++ [EvGuard e (net st') l (best_val_criterion st)]))
        by (apply Forall_app; split; [exact Hnc | repeat constructor; simpl; tauto]);
      (split; [rewrite Ht; apply justified_extend; auto |]);
      (split; [eapply tracks_extend; eauto |]);
      intros e0 n0 l0 b0 Hin Hp; rewrite Hb; rewrite Ht in Hin;
      (apply elem_of_app in Hin as [Hin | Hin]; [eauto |]);
      (apply elem_of_app in Hin as [Hin | Hin];
         [exfalso; eapply quiet_not_guard; eauto |]);
      apply list_elem_of_singleton in Hin; injection Hin as -> -> -> ->;
      congruence.
Qed.

Lemma run_inv_init (net0 : Net) (opt0 : Opt) : run_inv conf (init_state net0 opt0).
Proof.
  split; [| split].
  - intros e n Hin. simpl in Hin. apply elem_of_nil in Hin. contradiction.
  - left. simpl. split; [constructor | split; [reflexivity | apply lookup_empty]].
  - intros e n l b Hin. simpl in Hin. apply elem_of_nil in Hin. contradiction.
Qed.

Lemma run_inv_after (net0 : Net) (opt0 : Opt) (k : nat) :
  run_inv conf (after_epochs fw ds conf net0 opt0 k).
Proof.
  unfold after_epochs. apply for_range_invariant; [| apply run_inv_init].
  intros e st Hinv. destruct (epoch_body_spec e st) as (pre & Hq & Hstep).
  eapply epoch_step_inv; eauto.
Qed.

(** The test after the loop changes nothing: it raises at once, or there is
    no test split. *)
Lemma final_test_state (st : state) : snd (final_test fw ds conf st) = st.
Proof. unfold final_test. destruct (has_test conf); reflexivity. Qed.

Lemma final_state_after (net0 : Net) (opt0 : Opt) :
  final_state fw ds conf net0 opt0
  = after_epochs fw ds conf net0 opt0 (n_epochs conf).
Proof.
  unfold final_state, after_epochs, main, training. cbv [bind].
  destruct (for_range _ _ _) as [[[] | x] st1]; [| reflexivity].
  apply final_test_state.
Qed.

(** *** The first sixth of the epochs *)

Lemma past_sixth_iff (n e : nat) :
  past_sixth n e = true <-> (n < 6 * e)%nat.
Proof.
  unfold past_sixth. rewrite negb_true_iff, <- not_true_iff_false, Qle_bool_iff.
  unfold Qle, inject_Z. simpl. lia.
Qed.

(** With the integer quotient (Python 2) the test is the same. *)
Lemma past_sixth_floor (n e : nat) :
  past_sixth n e = Nat.ltb (n / 6) e.
Proof.
  apply eq_true_iff_eq. rewrite past_sixth_iff, Nat.ltb_lt.
  pose proof (Nat.div_mod_eq n 6) as Hd.
  pose proof (Nat.mod_upper_bound n 6) as Hm. lia.
Qed.

Lemma past_sixth_not_first (e : nat) :
  past_sixth (n_epochs conf) e = true <-> ~ in_first_sixth conf e.
Proof.
  unfold past_sixth, in_first_sixth.
  rewrite negb_true_iff, <- not_true_iff_false, Qle_bool_iff. reflexivity.
Qed.

(** *** The best-model update across a run *)

(** C1, amended: the checkpoint that the program has persisted as the best
    model when it ends is the one of an epoch after the first sixth, with a
    validation loss below 10000 that no epoch after the first sixth
    undercuts; and when no checkpoint is persisted, no epoch after the first
    sixth had a validation loss below 10000. *)
Theorem best_checkpoint_minimal_after_sixth (net0 : Net) (opt0 : Opt) :
  let st := final_state fw ds conf net0 opt0 in
  match fs st !! trained_model_file conf with
  | Some f =>
      exists e n l,
        f = StateDict n
        /\ epoch_loss st e n l
        /\ ~ in_first_sixth conf e
        /\ PyFloat.lt l 10000 = true
        /\ forall e' n' l',
             epoch_loss st e' n' l' -> ~ in_first_sixth conf e' ->
             PyFloat.lt l' l = false
  | None =>
      forall e' n' l',
        epoch_loss st e' n' l' -> ~ in_first_sixth conf e' ->
        PyFloat.lt l' 10000 = false
  end.
Proof.
  intros st. subst st. rewrite final_state_after.
  destruct (run_inv_after net0 opt0 (n_epochs conf)) as (_ & Htr & Hbd).
  set (st := after_epochs fw ds conf net0 opt0 (n_epochs conf)) in *.
  destruct Htr as [(_ & Hbest & Hfile) | (e & n & l & b & tr2 & Hat & _ & Hbest & Hl & Hp & Hfile & _)].
  - rewrite Hfile. intros e' n' l' [b' Hin] Hp'. rewrite <- Hbest.
    eapply Hbd; [exact Hin | apply past_sixth_not_first; exact Hp'].
  - rewrite Hfile. exists e, n, l. split; [reflexivity |].
    split; [| split; [apply past_sixth_not_first; exact Hp | split; [exact Hl |]]].
    + exists b. destruct Hat as [tr1 ->]. apply elem_of_app. right. left.
    + intros e' n' l' [b' Hin] Hp'. rewrite <- Hbest.
      eapply Hbd; [exact Hin | apply past_sixth_not_first; exact Hp'].
Qed.

(** C6: whenever an epoch updates the best model (the criterion changes),
    the trained-model path holds the state dict of the network and the same
    path with the suffix [.full] holds the full model object. *)
Theorem best_update_persists_both (e : nat) (st : state) :
  let st' := snd (epoch_body fw ds conf e st) in
  best_val_criterion st' <> best_val_criterion st ->
  fs st' !! trained_model_file conf = Some (StateDict (net st'))
  /\ fs st' !! (trained_model_file conf +:+ ".full") = Some (FullModel (net st')).
Proof.
  intros st' Hne. destruct (epoch_body_spec e st) as (pre & _ & Hstep).
  fold st' in Hstep. destruct Hstep as [(Hb & _) | [l Hstep]]; [contradiction |].
  destruct (PyFloat.lt l (best_val_criterion st) && past_sixth (n_epochs conf) e).
  - destruct Hstep as (_ & _ & Hf & Hf'). auto.
  - destruct Hstep as (_ & Hb & _). contradiction.
Qed.

(** C8: no checkpoint is written in an epoch [e <= n_epochs/6]; a
    checkpoint is written only directly after a best-model test whose
    validation loss is strictly below the criterion of that moment; and the
    model file never holds the network of an epoch of the first sixth. *)
Theorem checkpoints_only_after_first_sixth (net0 : Net) (opt0 : Opt) :
  let st := final_state fw ds conf net0 opt0 in
  (forall e n, in_first_sixth conf e -> EvCheckpoint e n ∉ trace st)
  /\ (forall e n, EvCheckpoint e n ∈ trace st ->
        exists l b tr2,
          checkpoint_at (trace st) e n l b tr2 /\ PyFloat.lt l b = true)
  /\ (forall n, fs st !! trained_model_file conf = Some (StateDict n) ->
        exists e, EvCheckpoint e n ∈ trace st /\ ~ in_first_sixth conf e).
Proof.
  intros st. subst st. rewrite final_state_after.
  destruct (run_inv_after net0 opt0 (n_epochs conf)) as (Hj & Htr & _).
  set (st := after_epochs fw ds conf net0 opt0 (n_epochs conf)) in *.
  split; [| split].
  - intros e n Hfirst Hin. destruct (Hj e n Hin) as (Hp & _).
    apply past_sixth_not_first in Hp. contradiction.
  - intros e n Hin. destruct (Hj e n Hin) as (_ & H). exact H.
  - intros n Hfile.
    destruct Htr as [(_ & _ & Hnone) | (e & n' & l & b & tr2 & Hat & _ & _ & _ & Hp & Hfile' & _)];
      [congruence |].
    rewrite Hfile' in Hfile. injection Hfile as ->.
    exists e. split; [| apply past_sixth_not_first; exact Hp].
    destruct Hat as [tr1 ->]. apply elem_of_app. right. right. left.
Qed.

(** *** The criterion across the epochs *)

Lemma after_epochs_step (net0 : Net) (opt0 : Opt) (k : nat) :
  exists pre,
    Forall quiet pre
    /\ epoch_step conf k (after_epochs fw ds conf net0 opt0 k)
                  (after_epochs fw ds conf net0 opt0 (S k)) pre.
Proof.
  unfold after_epochs. rewrite seq_S, for_range_snoc. cbn [Nat.add].
  destruct (for_range (seq 0 k) _ _) as [[[] | x] st1]; cbn [snd].
  - apply epoch_body_spec.
  - exists []. split; [constructor | left; apply emits_refl].
Qed.

Lemma epoch_step_nonincreasing (e : nat) (st st' : state) (pre : list event) :
  epoch_step conf e st st' pre ->
  best_val_criterion st' = best_val_criterion st
  \/ PyFloat.lt (best_val_criterion st') (best_val_criterion st) = true.
Proof.
  intros [(Hb & _) | [l Hstep]]; [left; exact Hb |].
  destruct (PyFloat.lt l (best_val_criterion st)) eqn:Hlt;
    destruct (past_sixth (n_epochs conf) e); cbn [andb] in Hstep.
  1:{ destruct Hstep as (_ & Hb & _). right. rewrite Hb. exact Hlt. }
  all: destruct Hstep as (_ & Hb & _); left; exact Hb.
Qed.

(** C9: the criterion starts at 10000; after every epoch it is 10000 with
    no checkpoint written so far, or the validation loss of the last
    checkpoint written; it never increases from an epoch to a later one; and
    an epoch changes it only together with writing the checkpoint. *)
Theorem criterion_never_increases (net0 : Net) (opt0 : Opt) (k d : nat) :
  let after := after_epochs fw ds conf net0 opt0 in
  best_val_criterion (after 0%nat) = 10000%float
  /\ ((no_checkpoint (trace (after k))
       /\ best_val_criterion (after k) = 10000%float)
      \/ exists e n l b tr2,
           checkpoint_at (trace (after k)) e n l b tr2
           /\ no_checkpoint tr2
           /\ best_val_criterion (after k) = l)
  /\ (best_val_criterion (after (k + d)%nat) = best_val_criterion (after k)
      \/ PyFloat.lt (best_val_criterion (after (k + d)%nat))
                    (best_val_criterion (after k)) = true)
  /\ ((best_val_criterion (after (S k)) = best_val_criterion (after k)
       /\ exists ext, trace (after (S k)) = trace (after k) ++ ext
                      /\ no_checkpoint ext)
      \/ exists pre n,
           trace (after (S k))
           = trace (after k) ++ pre
             ++ [EvGuard k n (best_val_criterion (after (S k)))
                         (best_val_criterion (after k));
                 EvCheckpoint k n]
           /\ PyFloat.lt (best_val_criterion (after (S k)))
                         (best_val_criterion (after k)) = true).
Proof.
  intros after. subst after. split; [reflexivity |]. split; [| split].
  - destruct (run_inv_after net0 opt0 k) as (_ & Htr & _).
    destruct Htr as [(Hnc & Hbest & _) | (e & n & l & b & tr2 & Hat & Hnc & Hbest & _)].
    + left. auto.
    + right. exists e, n, l, b, tr2. auto.
  - induction d as [| d IH]; [rewrite Nat.add_0_r; left; reflexivity |].
    rewrite Nat.add_succ_r.
    destruct (after_epochs_step net0 opt0 (k + d)) as (pre & _ & Hstep).
    apply epoch_step_nonincreasing in Hstep.
    destruct Hstep as [-> | Hlt]; [exact IH |].
    right. destruct IH as [<- | IH]; [exact Hlt |].
    eapply PyFloatFacts.lt_trans; eauto.
  - destruct (after_epochs_step net0 opt0 k) as (pre & Hq & Hstep).
    destruct Hstep as [(Hb & _ & _ & Ht) | [l Hstep]].
    { left. split; [exact Hb |]. exists pre.
      split; [exact Ht | apply quiet_no_checkpoint; exact Hq]. }
    destruct (PyFloat.lt l _) eqn:Hlt; destruct (past_sixth _ _);
      cbn [andb] in Hstep.
    1:{ destruct Hstep as (Ht & Hb & _). right. exists pre, (net (after_epochs fw ds conf net0 opt0 (S k))).
        rewrite Hb. split; [exact Ht | exact Hlt]. }
    all: destruct Hstep as (Ht & Hb & _); left; (split; [exact Hb |]);
      eexists; (split; [exact Ht |]); apply Forall_app;
      (split; [apply quiet_no_checkpoint; exact Hq | repeat constructor; simpl; tauto]).
Qed.

(** C7: a batch is the sequence (patches, distortion labels, mean, standard
    deviation) and the pass over a validation or test split hands to
    [measure], as [sq] and [sq_std], the items at positions 2 and 3 of its
    batches: their means and standard deviations. *)
Theorem eval_reads_mean_and_std (e : nat) (sp : split) (bs : list batch)
    (st : state) :
  bs <> [] ->
  exists sq q sq_std,
    trace (snd (eval_pass fw e sp bs st)) = trace st ++ [EvMeasure e sp sq q sq_std]
    /\ Forall2 (fun data x => getitem data 2 = Some x) bs sq
    /\ Forall2 (fun data x => getitem data 3 = Some x) bs sq_std
    /\ sq = map mos bs
    /\ sq_std = map mos_std bs
    /\ Forall (fun data => batch_items data
                           = [patches data; labels data; mos data; mos_std data]) bs.
Proof.
  intros Hne.
  destruct (eval_pass_spec e sp bs st)
    as (r & st' & H & _ & [(Hnil & _) | (_ & (_ & _ & _ & Ht) & _)]);
    [contradiction |].
  rewrite H. exists (map mos bs), (predictions fw (net st) bs), (map mos_std bs).
  split; [exact Ht |].
  split; [apply Forall2_fmap_r, Forall_Forall2_diag, Forall_forall; reflexivity |].
  split; [apply Forall2_fmap_r, Forall_Forall2_diag, Forall_forall; reflexivity |].
  split; [reflexivity |]. split; [reflexivity |].
  apply Forall_forall. reflexivity.
Qed.

(** *** The test results *)

Lemma model_path_not_result (a b : string) :
  trained_model_file conf +:+ a <> save_result_file conf +:+ b.
Proof. unfold trained_model_file, save_result_file. simpl. discriminate. Qed.

Lemma model_path_not_result' (b : string) :
  trained_model_file conf <> save_result_file conf +:+ b.
Proof. unfold trained_model_file, save_result_file. simpl. discriminate. Qed.

Lemma txt_not_npy (s : string) : s +:+ ".npy" <> s +:+ ".txt".
Proof.
  induction s as [| c s IH]; simpl; [discriminate |].
  intros H. injection H as H. exact (IH H).
Qed.

(** C3: with [test_ratio > 0], the test after the loop stops at its first
    statement with an [AttributeError]: [model] is the string
    [conf['model']], not the network.  Nothing is loaded, evaluated or
    reported. *)
Theorem final_test_raises (st : state) :
  has_test conf = true ->
  final_test fw ds conf st = (Raise (AttributeError "load_state_dict"), st)
  /\ exists x, fst (main fw ds conf st) = Raise x.
Proof.
  intros H.
  assert (Hfinal : forall st1, final_test fw ds conf st1
                               = (Raise (AttributeError "load_state_dict"), st1)).
  { intros st1. unfold final_test. rewrite H. reflexivity. }
  split; [apply Hfinal |]. unfold main. cbv [bind].
  destruct (training fw ds conf st) as [[[] | x] st1]; [| eauto].
  rewrite Hfinal. eauto.
Qed.

(** C4: when an update of the best model reports the test results, the
    outlier ratio of the printed line and of the line of the results file
    is the one of the validation split ([val_OR]); only the saved record
    holds the outlier ratio [OR] of the test split. *)
Theorem test_line_reports_validation_ratio (e : nat)
    (l s k p r val_OR tl ts tk tp tr OR : float) (sq sd q : list pyval)
    (st : state) :
  tests_during_training conf = true ->
  PyFloat.lt l (best_val_criterion st) && past_sixth (n_epochs conf) e = true ->
  let st' := snd (update_best_model ds conf e l (s, k, p, r, val_OR)
                    (Some (tl, (ts, tk, tp, tr, OR), (sq, sd, q))) st) in
  let lines := [UpdateLine (EXP_ID conf) e;
                ValResults l s k p r (val_OR * 100);
                TestResults tl ts tk tp tr (val_OR * 100)] in
  stdout st' = stdout st ++ lines
  /\ fs st' !! (save_result_file conf +:+ ".txt") = Some (TextFile lines)
  /\ fs st' !! (save_result_file conf +:+ ".npy")
     = Some (NpyFile (TestRecord sq sd q tl ts tk tp tr OR (test_index ds))).
Proof.
  intros Htests Hguard st' lines. subst st' lines.
  unfold update_best_model. cbv [bind gets emit modify]. rewrite Hguard.
  cbv [print write_file write_line modify]. rewrite Htests.
  cbv [read_test ret bind print write_file write_line modify emit]. simpl.
  split; [rewrite <- !app_assoc; reflexivity |]. split.
  - rewrite lookup_insert_ne by apply model_path_not_result.
    rewrite lookup_insert_ne by apply model_path_not_result'.
    rewrite lookup_insert_ne by apply txt_not_npy.
    rewrite !lookup_alter_eq, lookup_insert_eq. reflexivity.
  - rewrite lookup_insert_ne by apply model_path_not_result.
    rewrite lookup_insert_ne by apply model_path_not_result'.
    apply lookup_insert_eq.
Qed.

End Facts.

(** *** Runs of the small framework *)

Lemma elem_of_guard_events {Net : Type} (tr : list (event Net))
    (e : nat) (n : Net) (l b : float) :
  EvGuard e n l b ∈ tr <-> (e, n, l, b) ∈ guard_events tr.
Proof.
  unfold guard_events. rewrite list_elem_of_omap. split.
  - intros H. exists (EvGuard e n l b). auto.
  - intros (ev & Hin & Hev). destruct ev; try discriminate.
    injection Hev as -> -> -> ->. exact Hin.
Qed.

(** The run of six epochs without a test split: the best-model tests and
    the checkpoint that remains. *)
Example run_without_test_split :
  guard_events (trace (snd (Toy.run 0 false)))
  = [(0%nat, 1%nat, 0.25, 10000); (1%nat, 2%nat, 0.5, 10000);
     (2%nat, 3%nat, 2, 10000); (3%nat, 4%nat, 1, 2);
     (4%nat, 5%nat, 0.75, 1); (5%nat, 6%nat, 4, 0.75)]
  /\ fs (snd (Toy.run 0 false)) !! trained_model_file (Toy.conf 0 false)
     = Some (StateDict 5%nat).
Proof. vm_compute. auto. Qed.

(** C1 as stated fails: the validation loss is minimal in epoch 0 (0.25),
    and the checkpoint that remains is the one of epoch 4 (loss 0.75). *)
Lemma best_is_not_minimal_over_all_epochs :
  ~ best_is_minimal_over_all_epochs (Toy.conf 0 false) (snd (Toy.run 0 false)).
Proof.
  destruct run_without_test_split as [Hguards Hfile].
  intros H. destruct (H 5%nat Hfile) as (e & l & [b Hin] & Hmin).
  assert (H0 : epoch_loss (snd (Toy.run 0 false)) 0 1%nat 0.25).
  { exists 10000%float. apply elem_of_guard_events. rewrite Hguards. left. }
  specialize (Hmin _ _ _ H0).
  apply elem_of_guard_events in Hin. rewrite Hguards in Hin.
  assert (Hl : l = 0.75%float).
  { clear Hguards Hfile H H0 Hmin.
    repeat (apply elem_of_cons in Hin as [Hin | Hin]; [try discriminate Hin |]).
    - injection Hin as _ -> _. reflexivity.
    - apply elem_of_nil in Hin. contradiction. }
  subst l. discriminate Hmin.
Qed.

(** Epoch 2 from the initial state: the loss 0.25 is below 10000 and both
    files are written. *)
Lemma best_update_persists_both_witness :
  let st' := snd (epoch_body Toy.fw Toy.data (Toy.conf 0 false) 2
                             (init_state 0%nat tt)) in
  fs st' !! trained_model_file (Toy.conf 0 false) = Some (StateDict (net st'))
  /\ fs st' !! (trained_model_file (Toy.conf 0 false) +:+ ".full")
     = Some (FullModel (net st')).
Proof.
  apply (best_update_persists_both Toy.fw Toy.data (Toy.conf 0 false) 2
           (init_state 0%nat tt)).
  vm_compute. intros H.
  apply (f_equal (fun x => PrimFloat.ltb x 10000)) in H.
  vm_compute in H. discriminate.
Defined.

(** A validation pass over one batch. *)
Lemma eval_reads_mean_and_std_witness :
  exists sq q sq_std,
    trace (snd (eval_pass Toy.fw 0 ValSplit (Toy.one_batch 5 1 0.5)
                          (init_state 0%nat tt)))
    = trace (init_state 0%nat tt) ++ [EvMeasure 0 ValSplit sq q sq_std]
    /\ Forall2 (fun data x => getitem data 2 = Some x) (Toy.one_batch 5 1 0.5) sq
    /\ Forall2 (fun data x => getitem data 3 = Some x) (Toy.one_batch 5 1 0.5) sq_std
    /\ sq = map mos (Toy.one_batch 5 1 0.5)
    /\ sq_std = map mos_std (Toy.one_batch 5 1 0.5)
    /\ Forall (fun data => batch_items data
                           = [patches data; labels data; mos data; mos_std data])
              (Toy.one_batch 5 1 0.5).
Proof.
  apply (eval_reads_mean_and_std Toy.fw 0 ValSplit (Toy.one_batch 5 1 0.5)
           (init_state 0%nat tt)).
  discriminate.
Defined.

(** A configuration with [test_ratio = 0.5]. *)
Lemma final_test_raises_witness :
  final_test Toy.fw Toy.data (Toy.conf 0.5 false) (init_state 0%nat tt)
  = (Raise (AttributeError "load_state_dict"), init_state 0%nat tt)
  /\ exists x,
       fst (main Toy.fw Toy.data (Toy.conf 0.5 false) (init_state 0%nat tt))
       = Raise x.
Proof.
  apply (final_test_raises Toy.fw Toy.data (Toy.conf 0.5 false)).
  reflexivity.
Defined.

(** The whole run with a test split: it ends in the [AttributeError], and
    no test result was printed or saved. *)
Example run_with_test_split :
  fst (Toy.run 0.5 false) = Raise (AttributeError "load_state_dict")
  /\ stdout (snd (Toy.run 0.5 false))
     = [UpdateLine "0" 2; ValResults 2 1 1 1 4 100;
        UpdateLine "0" 3; ValResults 1 1 1 1 4 100;
        UpdateLine "0" 4; ValResults 0.75 1 1 1 4 100]
  /\ fs (snd (Toy.run 0.5 false))
       !! (save_result_file (Toy.conf 0.5 false) +:+ ".npy") = None.
Proof. vm_compute. auto. Qed.

(** In epoch 2 of the run that tests during training: the validation split
    has outlier ratio 1 and the test split 0; the test line shows 100%. *)
Lemma test_line_reports_validation_ratio_witness :
  let st := init_state 0%nat tt in
  let st' := snd (update_best_model Toy.data (Toy.conf 0.5 true) 2 2
                    (1, 1, 1, 4, 1)%float
                    (Some (2, (1, 1, 1, 0, 0), ([Toy.scalar 1], [Toy.scalar 1],
                                                [Toy.scalar 1])))%float st) in
  let lines := [UpdateLine (EXP_ID (Toy.conf 0.5 true)) 2;
                ValResults 2 1 1 1 4 (1 * 100);
                TestResults 2 1 1 1 0 (1 * 100)] in
  stdout st' = stdout st ++ lines
  /\ fs st' !! (save_result_file (Toy.conf 0.5 true) +:+ ".txt")
     = Some (TextFile lines)
  /\ fs st' !! (save_result_file (Toy.conf 0.5 true) +:+ ".npy")
     = Some (NpyFile (TestRecord [Toy.scalar 1] [Toy.scalar 1] [Toy.scalar 1]
                                 2 1 1 1 0 0 (test_index Toy.data))).
Proof.
  apply (test_line_reports_validation_ratio Toy.data (Toy.conf 0.5 true) 2
           2 1 1 1 4 1 2 1 1 1 0 0 [Toy.scalar 1] [Toy.scalar 1] [Toy.scalar 1]
           (init_state 0%nat tt));
    reflexivity.
Defined.

(** The lines printed by the run that tests during training. *)
Example run_testing_during_training :
  stdout (snd (Toy.run 0.5 true))
  = [UpdateLine "0" 2; ValResults 2 1 1 1 4 100; TestResults 2 1 1 1 0 100;
     UpdateLine "0" 3; ValResults 1 1 1 1 4 100; TestResults 1 1 1 1 0 100;
     UpdateLine "0" 4; ValResults 0.75 1 1 1 4 100; TestResults 0.75 1 1 1 0 100]
  /\ exists r,
       fs (snd (Toy.run 0.5 true))
         !! (save_result_file (Toy.conf 0.5 true) +:+ ".npy") = Some (NpyFile r)
       /\ rec_OR r = 0%float.
Proof. vm_compute. eauto. Qed.

End ControllerFacts.

(** ** More on the order of floats *)

Module PyOrderFacts.
Import PyFloat PyOrder.

Lemma SFcompare_refl (x : spec_float) :
  x <> S754_nan -> SFcompare x x = Some Eq.
Proof.
  destruct x as [s | s | | s m e]; simpl; try congruence; intros _.
  - destruct s; reflexivity.
  - destruct s; rewrite Z.compare_refl, Pos.compare_cont_refl; reflexivity.
Qed.

Lemma SFcompare_nan (x y : spec_float) :
  SFcompare x y = None <-> x = S754_nan \/ y = S754_nan.
Proof.
  destruct x as [sx | sx | | sx mx ex], y as [sy | sy | | sy my ey]; simpl;
    split; try discriminate; try tauto;
    try (intros [H | H]; discriminate).
Qed.

Lemma SFcompare_antisym (x y : spec_float) :
  SFcompare y x = option_map CompOpp (SFcompare x y).
Proof.
  destruct x as [sx | sx | | sx mx ex], y as [sy | sy | | sy my ey]; simpl;
    try reflexivity;
    repeat match goal with
           | s : bool |- _ => destruct s
           end; simpl; try reflexivity.
  - rewrite (Z.compare_antisym ey ex).
    destruct (Z.compare ey ex); simpl; try reflexivity.
    do 2 f_equal. exact (Pos.compare_antisym mx my).
  - rewrite (Z.compare_antisym ey ex).
    destruct (Z.compare ey ex); simpl; try reflexivity.
    f_equal. exact (Pos.compare_antisym mx my).
Qed.

(** Equal numbers compare alike with a third. *)
Lemma SFcompare_eq_r (x y z : spec_float) :
  SFcompare y z = Some Eq -> SFcompare x y = SFcompare x z.
Proof.
  destruct y as [sy | sy | | sy my ey], z as [sz | sz | | sz mz ez]; simpl;
    try discriminate;
    repeat match goal with
           | s : bool |- _ => destruct s
           end; simpl; try discriminate;
    try (intros _; destruct x as [sx | [] | | [] mx ex]; reflexivity).
  - intros H. injection H as H.
    destruct (Z.compare_spec ey ez) as [He | He | He]; try discriminate.
    destruct (Pos.compare_cont Eq my mz) eqn:Hm; try discriminate.
    apply Pos.compare_eq in Hm. subst. reflexivity.
  - intros H. injection H as H.
    destruct (Z.compare_spec ey ez) as [He | He | He]; try discriminate.
    apply Pos.compare_eq in H. subst. reflexivity.
Qed.

Lemma is_nan_spec (a : float) : is_nan a = true <-> Prim2SF a = S754_nan.
Proof.
  unfold is_nan, PrimFloat.is_nan. rewrite negb_true_iff, FloatAxioms.eqb_spec. unfold SFeqb.
  split.
  - intros H. destruct (Prim2SF a) eqn:Ha; try reflexivity;
      rewrite SFcompare_refl in H by discriminate; discriminate.
  - intros ->. reflexivity.
Qed.

Lemma is_nan_false (a : float) : is_nan a = false <-> Prim2SF a <> S754_nan.
Proof. rewrite <- is_nan_spec. destruct (is_nan a); split; congruence. Qed.

Lemma lt_not_nan (a b : float) :
  lt a b = true -> is_nan a = false /\ is_nan b = false.
Proof.
  unfold lt. rewrite FloatAxioms.ltb_spec, !is_nan_false. unfold SFltb.
  destruct (SFcompare (Prim2SF a) (Prim2SF b)) as [c |] eqn:Hc; [| discriminate].
  intros _. split; intros Hn;
    assert (Hnone : SFcompare (Prim2SF a) (Prim2SF b) = None)
      by (apply SFcompare_nan; auto); congruence.
Qed.

Lemma le_refl (a : float) : is_nan a = false -> le a a = true.
Proof.
  rewrite is_nan_false. intros H. unfold le. rewrite FloatAxioms.leb_spec. unfold SFleb.
  rewrite SFcompare_refl by exact H. reflexivity.
Qed.

Lemma lt_le (a b : float) : lt a b = true -> le a b = true.
Proof.
  unfold lt, le. rewrite FloatAxioms.ltb_spec, FloatAxioms.leb_spec. unfold SFltb, SFleb.
  destruct (SFcompare _ _) as [[ | | ] |]; congruence.
Qed.

(** Two numbers that are not NaN are comparable. *)
Lemma not_lt_le (a b : float) :
  is_nan a = false -> is_nan b = false -> lt a b = false -> le b a = true.
Proof.
  rewrite !is_nan_false. unfold lt, le. rewrite FloatAxioms.ltb_spec, FloatAxioms.leb_spec.
  unfold SFltb, SFleb. intros Ha Hb. rewrite (SFcompare_antisym (Prim2SF a)).
  destruct (SFcompare (Prim2SF a) (Prim2SF b)) as [[ | | ] |] eqn:Hc; simpl;
    try congruence.
  apply SFcompare_nan in Hc. tauto.
Qed.

Lemma lt_le_trans (a b c : float) :
  lt a b = true -> le b c = true -> lt a c = true.
Proof.
  intros Hab Hbc.
  destruct (PrimFloat.ltb b c) eqn:Hlt.
  - eapply PyFloatFacts.lt_trans; eauto.
  - revert Hab Hbc Hlt. unfold lt, le. rewrite !FloatAxioms.ltb_spec, FloatAxioms.leb_spec.
    unfold SFltb, SFleb.
    destruct (SFcompare (Prim2SF b) (Prim2SF c)) as [[ | | ] |] eqn:Hc;
      try discriminate.
    rewrite (SFcompare_eq_r (Prim2SF a) _ _ Hc). auto.
Qed.

(** A float that is positive is true. *)
Lemma positive_truthy (a : float) : lt 0 a = true -> truthy a = true.
Proof.
  unfold lt, truthy. rewrite negb_true_iff, FloatAxioms.ltb_spec, FloatAxioms.eqb_spec.
  unfold SFltb, SFeqb. rewrite (SFcompare_antisym (Prim2SF 0)).
  destruct (SFcompare (Prim2SF 0) (Prim2SF a)) as [[ | | ] |]; simpl; congruence.
Qed.

End PyOrderFacts.

(** ** What the controller keeps and writes *)

Module FrameFacts.
Import Numpy Controller Observe Frames ControllerFacts.

Section FrameFacts.

Context {Net Opt : Type}.
Variable fw : framework Net Opt.
Variable ds : dataset.
Variable conf : config.

Local Abbreviation state := (state Net Opt).
Local Abbreviation M := (M Net Opt).
Local Abbreviation event := (event Net).

(** *** Rules for [keeps] *)

Section Rules.

Variable R : state -> state -> Prop.
Context `{!PreOrder R}.

Lemma keeps_ret {A : Type} (a : A) : keeps R (ret a).
Proof. intros st. reflexivity. Qed.

Lemma keeps_raise {A : Type} (x : exn) : keeps R (@raise Net Opt A x).
Proof. intros st. reflexivity. Qed.

Lemma keeps_gets {A : Type} (f : state -> A) : keeps R (gets f).
Proof. intros st. reflexivity. Qed.

Lemma keeps_modify (f : state -> state) :
  (forall st, R st (f st)) -> keeps R (modify f).
Proof. intros H st. apply H. Qed.

Lemma keeps_bind {A B : Type} (m : M A) (k : A -> M B) :
  keeps R m -> (forall a, keeps R (k a)) -> keeps R (bind m k).
Proof.
  intros Hm Hk st. unfold bind. specialize (Hm st).
  destruct (m st) as [[a | x] st1]; simpl in *; [| exact Hm].
  etransitivity; [exact Hm | apply Hk].
Qed.

Lemma keeps_for_enumerate {A Acc : Type} (body : A -> Acc -> M Acc)
    (l : list A) :
  (forall k st, R st (set_var_i (Some k) st)) ->
  (forall data acc, keeps R (body data acc)) ->
  forall k acc, keeps R (for_enumerate k l body acc).
Proof.
  intros Hi Hbody. induction l as [| data l IH]; intros k acc; cbn [for_enumerate].
  - apply keeps_ret.
  - apply keeps_bind; [apply keeps_modify, Hi |]. intros _.
    apply keeps_bind; [apply Hbody |]. intros acc'. apply IH.
Qed.

Lemma keeps_read_i : keeps R read_i.
Proof. intros st. unfold read_i. destruct (var_i st); reflexivity. Qed.

Lemma keeps_read_val_OR : keeps R read_val_OR.
Proof. intros st. unfold read_val_OR. destruct (var_val_OR st); reflexivity. Qed.

Lemma keeps_for_range (body : nat -> M unit) (es : list nat) :
  (forall e, keeps R (body e)) -> keeps R (for_range es body).
Proof.
  intros Hbody. induction es as [| e es IH]; cbn [for_range].
  - apply keeps_ret.
  - apply keeps_bind; [apply Hbody | intros _; exact IH].
Qed.

End Rules.

(** A program is taken apart down to its assignments, which [leaf] is to
    relate. *)
Ltac keeps_prog_with unit leaf :=
  repeat first
    [ unit
    | apply keeps_ret; exact _ | apply keeps_raise; exact _
    | apply keeps_gets; exact _
    | apply keeps_read_i; exact _ | apply keeps_read_val_OR; exact _
    | apply keeps_bind; [exact _ | | intros ?]
    | apply keeps_for_enumerate; [exact _ | intros ? ?; leaf | intros ? ?]
    | apply keeps_for_range; [exact _ | intros ?]
    | apply keeps_modify; intros ?; leaf
    | progress unfold main, training, final_test, epoch_body, passes,
        update_best_model, tensorboard, log_measures, read_test, eval_pass,
        call_measure, eval_batch, index, train_pass,
        str_getattr, emit, print, write_file, write_line
    | match goal with
      | |- keeps _ (match ?x with _ => _ end) => destruct x
      end ].

Ltac keeps_prog leaf :=
  keeps_prog_with ltac:(progress unfold train_batch) leaf.

(** *** The step counter *)

#[local] Instance step_counts_preorder :
  PreOrder (step_counts (Net := Net) (Opt := Opt)).
Proof.
  split; [intros st; reflexivity |].
  intros st1 st2 st3 H1 H2. unfold step_counts in *. lia.
Qed.

Lemma train_steps_snoc (tr : list event) (ev : event) :
  train_steps (tr ++ [ev])
  = (train_steps tr + match ev with EvTrainStep _ _ => 1 | _ => 0 end)%nat.
Proof.
  unfold train_steps. rewrite omap_app, length_app. destruct ev; simpl; lia.
Qed.

Lemma train_batch_counts (e : nat) (data : batch) (L : float) :
  keeps step_counts (train_batch fw e data L).
Proof.
  intros st. unfold train_batch. cbv [bind gets].
  destruct (train_step fw (net st) (opt st) data) as [[n' o'] loss].
  cbv [bind modify emit ret]. unfold step_counts. simpl.
  rewrite train_steps_snoc. lia.
Qed.

Lemma main_counts_steps : keeps step_counts (main fw ds conf).
Proof.
  keeps_prog_with
    ltac:(apply train_batch_counts)
    ltac:(unfold step_counts;
          cbn [step trace set_net set_opt set_step set_var_i set_var_val_OR
               set_best_val_criterion set_fs set_stdout set_trace];
          rewrite ?train_steps_snoc; lia).
Qed.

(** *** The best-model update in closed form *)

Lemma update_taken (e : nat) (l : float) (mv : measures) (test : test_vars)
    (st : state) :
  (tests_during_training conf = true -> is_Some test) ->
  PyFloat.lt l (best_val_criterion st) && past_sixth (n_epochs conf) e = true ->
  update_best_model ds conf e l mv test st
  = (Ok tt,
     State (net st) (opt st) (step st) (var_i st) (var_val_OR st) l
           (update_files ds conf e l mv test (net st) (fs st))
           (stdout st ++ update_lines conf e l mv test)
           (trace st ++ [EvGuard e (net st) l (best_val_criterion st);
                         EvCheckpoint e (net st)])).
Proof.
  intros Htest Hguard. destruct mv as [[[[s k] p] r] o].
  unfold update_best_model, update_files, update_lines.
  cbv [bind gets emit modify]. rewrite Hguard.
  cbv [print write_file write_line modify].
  destruct (tests_during_training conf).
  - destruct (Htest eq_refl) as [[[tl [[[[ts tk] tp] tr] to]] [[sq sd] q]] ->].
    cbv [read_test ret bind print write_file write_line modify emit]. simpl.
    rewrite !alter_insert_eq, <- !app_assoc. reflexivity.
  - cbv [ret bind emit modify]. simpl.
    rewrite !alter_insert_eq, <- !app_assoc.
    destruct test as [[[tl [[[[ts tk] tp] tr] to]] [[sq sd] q]] |]; reflexivity.
Qed.

Lemma update_not_taken (e : nat) (l : float) (mv : measures) (test : test_vars)
    (st : state) :
  PyFloat.lt l (best_val_criterion st) && past_sixth (n_epochs conf) e = false ->
  update_best_model ds conf e l mv test st
  = (Ok tt, set_trace (trace st ++ [EvGuard e (net st) l (best_val_criterion st)]) st).
Proof.
  intros Hguard. destruct mv as [[[[s k] p] r] o]. unfold update_best_model.
  cbv [bind gets emit modify]. rewrite Hguard. reflexivity.
Qed.

(** *** The ways in which an epoch ends *)

Lemma train_pass_raise (e : nat) (st st' : state) (x : exn) :
  train_pass fw ds e st = (Raise x, st') ->
  x = NameError "i" /\ trainloader ds e = [] /\ var_i st = None.
Proof.
  unfold train_pass. cbv [bind modify].
  destruct (train_loop_spec fw e (trainloader ds e) 0 0%float
              (set_net (net_train fw (net st)) st))
    as (L & st1 & Hloop & _ & Hi).
  rewrite Hloop. unfold read_i. destruct (var_i st1) as [i |] eqn:Hvi;
    [discriminate |].
  intros H. injection H as <- _. split; [reflexivity |].
  destruct (trainloader ds e) as [| b bs].
  - split; [reflexivity |]. destruct (var_i st) as [i |] eqn:Hv; [| reflexivity].
    destruct Hi as [j Hj]; [right; simpl; rewrite Hv; eauto | congruence].
  - destruct Hi as [j Hj]; [left; discriminate | congruence].
Qed.

Lemma eval_pass_raise (e : nat) (sp : split) (bs : list batch)
    (st st' : state) (x : exn) :
  eval_pass fw e sp bs st = (Raise x, st') -> x = TypeError \/ x = ValueError.
Proof.
  intros H. destruct (eval_pass_spec fw e sp bs st)
    as (r & st1 & H1 & _ & [(_ & -> & _) | (_ & _ & Hres)]);
    rewrite H in H1; injection H1 as <- <-.
  - left. reflexivity.
  - destruct (measured fw (net st) bs); [destruct Hres; discriminate |].
    injection Hres as ->. right. reflexivity.
Qed.

(** An epoch stops in its passes, or goes through the logging and the
    best-model update, which do not raise. *)
Lemma epoch_body_cases (e : nat) (st : state) :
  (exists x st1,
     passes fw ds conf e st = (Raise x, st1)
     /\ epoch_body fw ds conf e st = (Raise x, st1)
     /\ quiet_step st st1)
  \/ (exists tl vl mv test st1 st2,
        passes fw ds conf e st = (Ok (tl, vl, mv, test), st1)
        /\ (tests_during_training conf = true -> is_Some test)
        /\ quiet_step st st2
        /\ net st2 = net st1 /\ step st2 = step st1
        /\ epoch_body fw ds conf e st
           = update_best_model ds conf e vl mv test st2).
Proof.
  destruct (passes_frame fw ds conf e st) as (r & st1 & H1 & Hq1 & Htest).
  unfold epoch_body. cbv [bind]. rewrite H1.
  destruct r as [[[[tl vl] mv] test] | x].
  2:{ left. exists x, st1. auto. }
  right. specialize (Htest tl vl mv test eq_refl).
  destruct (tensorboard_spec conf e tl vl mv test st1)
    as (r2 & st2 & H2 & Hs2 & Hn2 & Hok).
  rewrite H2, (Hok Htest).
  exists tl, vl, mv, test, st1, st2. split; [reflexivity |].
  split; [exact Htest |].
  split; [eapply quiet_step_trans; [exact Hq1 | apply scalar_quiet; exact Hs2] |].
  split; [exact Hn2 |]. split; [| reflexivity].
  assert (Hk : keeps (fun a b : state => step b = step a)
                 (tensorboard conf e tl vl mv test)).
  { assert (PreOrder (fun a b : state => step b = step a)).
    { split; [intros a; reflexivity | intros a b c Ha Hb; congruence]. }
    keeps_prog ltac:(reflexivity). }
  specialize (Hk st1). rewrite H2 in Hk. exact Hk.
Qed.

Lemma update_returns (e : nat) (l : float) (mv : measures) (test : test_vars)
    (st : state) :
  (tests_during_training conf = true -> is_Some test) ->
  fst (update_best_model ds conf e l mv test st) = Ok tt.
Proof.
  intros Htest.
  destruct (PyFloat.lt l (best_val_criterion st) && past_sixth (n_epochs conf) e)
    eqn:Hguard.
  - rewrite update_taken by assumption. reflexivity.
  - rewrite update_not_taken by assumption. reflexivity.
Qed.

(** An epoch that raises does so in its passes, and has then written no
    file, printed no line, and neither reached the best-model test nor
    changed the criterion. *)
Theorem failing_epoch_writes_nothing (e : nat) (st st' : state) (x : exn) :
  epoch_body fw ds conf e st = (Raise x, st') ->
  passes fw ds conf e st = (Raise x, st')
  /\ fs st' = fs st
  /\ stdout st' = stdout st
  /\ best_val_criterion st' = best_val_criterion st
  /\ exists evs, trace st' = trace st ++ evs /\ Forall quiet evs.
Proof.
  intros H.
  destruct (epoch_body_cases e st)
    as [(x1 & st1 & Hp & He & Hq)
       | (tl & vl & mv & test & st1 & st2 & _ & Htest & _ & _ & _ & He)].
  - rewrite H in He. injection He as <- <-.
    split; [exact Hp |].
    destruct Hq as (evs & (Hb & Hf & Ho & Ht) & Hquiet). eauto 10.
  - pose proof (update_returns e vl mv test st2 Htest) as Hok.
    rewrite <- He, H in Hok. discriminate.
Qed.

(** Once the passes of an epoch have returned, the epoch returns: neither
    the logging nor the best-model update raises. *)
Theorem epoch_returns_after_passes (e : nat) (st st1 : state)
    (r : float * float * measures * test_vars) :
  passes fw ds conf e st = (Ok r, st1) ->
  exists st', epoch_body fw ds conf e st = (Ok tt, st').
Proof.
  intros H.
  destruct (epoch_body_cases e st)
    as [(x1 & st1' & Hp & _)
       | (tl & vl & mv & test & st1' & st2 & _ & Htest & _ & _ & _ & He)].
  - rewrite H in Hp. discriminate.
  - pose proof (update_returns e vl mv test st2 Htest) as Hok.
    rewrite He. destruct (update_best_model ds conf e vl mv test st2) as [r' st'].
    simpl in Hok. subst r'. eauto.
Qed.

(** The training pass raises exactly when the training split yields no
    batch and no loop has bound [i] before; the exception is the
    [NameError] of [i]. *)
Theorem train_pass_raises_iff (e : nat) (st : state) :
  (exists x st', train_pass fw ds e st = (Raise x, st'))
  <-> trainloader ds e = [] /\ var_i st = None.
Proof.
  split.
  - intros (x & st' & H). apply train_pass_raise in H. tauto.
  - intros [Hnil Hvar]. exists (NameError "i"), (set_net (net_train fw (net st)) st).
    unfold train_pass. rewrite Hnil. cbv [bind modify for_enumerate ret read_i].
    simpl. rewrite Hvar. reflexivity.
Qed.

(** A run whose training split is empty stops in epoch 0 with the
    [NameError] of [i], before any validation. *)
Theorem empty_training_split_stops_run (net0 : Net) (opt0 : Opt) :
  (0 < n_epochs conf)%nat ->
  trainloader ds 0 = [] ->
  main fw ds conf (init_state net0 opt0)
  = (Raise (NameError "i"),
     set_net (net_train fw net0) (init_state net0 opt0)).
Proof.
  intros Hn Hnil. unfold main, training.
  destruct (n_epochs conf) as [| n]; [lia |].
  cbn [seq for_range]. unfold epoch_body, passes, train_pass. rewrite Hnil.
  reflexivity.
Qed.

(** With an empty validation split an epoch stops after its training pass
    with a [TypeError] ([L] is still the integer 0): [measure] is not
    called. *)
Theorem empty_validation_split_raises (e : nat) (st st1 : state) (tl : float) :
  train_pass fw ds e st = (Ok tl, st1) ->
  valloader ds e = [] ->
  exists st',
    epoch_body fw ds conf e st = (Raise TypeError, st')
    /\ emits st st' (map (EvTrainStep e) (trainloader ds e)).
Proof.
  intros Htrain Hnil.
  destruct (train_pass_spec fw ds e st) as (r & st1' & H1 & Hem & _).
  rewrite Htrain in H1. injection H1 as <- <-.
  unfold epoch_body, passes. cbv [bind]. rewrite Htrain, Hnil.
  eexists. split; [reflexivity |].
  destruct Hem as (Hb & Hf & Ho & Ht). unfold emits. simpl. auto.
Qed.

(** *** The validation of an epoch *)

Lemma fold_iadd_some (n : Net) (bs : list batch) (a : pyval) :
  fold_left (fun L d => iadd fw L (fst (forward fw n d))) bs (Some a)
  = Some (fold_left (fun L d => tensor_add fw L (fst (forward fw n d))) bs a).
Proof.
  revert a. induction bs as [| d bs IH]; intros a; simpl; [reflexivity | apply IH].
Qed.

(** The loop of a pass in closed form: what it leaves in [L], [q], [sq],
    [sq_std] and [i]. *)
Lemma eval_loop_closed (bs : list batch) :
  forall (k : nat) (L : option pyval) (q sq sq_std : list pyval) (st : state),
    for_enumerate k bs (eval_batch fw) (L, q, sq, sq_std) st
    = (Ok (fold_left (fun L d => iadd fw L (fst (forward fw (net st) d))) bs L,
           q ++ predictions fw (net st) bs,
           sq ++ map mos bs, sq_std ++ map mos_std bs),
       match bs with
       | [] => st
       | _ :: _ => set_var_i (Some (k + length bs - 1)%nat) st
       end).
Proof.
  induction bs as [| data bs IH]; intros k L q sq sq_std st; cbn [for_enumerate].
  - unfold predictions. simpl. rewrite !app_nil_r. reflexivity.
  - cbv [bind modify]. rewrite eval_batch_spec, IH.
    unfold predictions. cbn [map fold_left net set_var_i length].
    rewrite <- !app_assoc. f_equal.
    destruct bs as [| d' bs]; unfold set_var_i; cbn; do 2 f_equal; lia.
Qed.

Lemma eval_pass_nil (e : nat) (sp : split) (st : state) :
  eval_pass fw e sp [] st = (Raise TypeError, st).
Proof. reflexivity. Qed.

(** A pass over a split that is not empty, in closed form. *)
Lemma eval_pass_closed (e : nat) (sp : split) (bs : list batch) (st : state) :
  bs <> [] ->
  exists loss,
    split_loss fw (net st) bs = Some loss
    /\ eval_pass fw e sp bs st
       = (match measured fw (net st) bs with
          | Some mv => Ok (loss, mv, (map mos bs, map mos_std bs,
                                      predictions fw (net st) bs))
          | None => Raise ValueError
          end,
          set_trace (trace st ++ [EvMeasure e sp (map mos bs)
                                            (predictions fw (net st) bs)
                                            (map mos_std bs)])
                    (set_var_i (Some (length bs - 1)%nat) st)).
Proof.
  destruct bs as [| data bs]; [congruence |]. intros _.
  eexists. split; [reflexivity |].
  unfold eval_pass. cbv [bind]. rewrite eval_loop_closed.
  cbn [fold_left app]. unfold iadd at 2. rewrite fold_iadd_some.
  cbv [ret read_i]. cbn [var_i set_var_i length].
  replace (0 + S (length bs) - 1 + 1)%nat with (S (length bs)) by lia.
  unfold call_measure. cbv [bind emit modify].
  fold (measured fw (net st) (data :: bs)).
  cbn [net set_var_i trace].
  destruct (measured fw (net st) (data :: bs)); reflexivity.
Qed.

Lemma validation_calls_quiet (evs : list event) :
  Forall after_validation evs -> validation_calls evs = [].
Proof.
  intros H. induction H as [| ev evs Hev _ IH]; [reflexivity |].
  destruct ev as [? ? | ? [] ? ? ? | ? ? ? ? | ? ? ? ? | ? ?];
    simpl in Hev; try contradiction; exact IH.
Qed.

Lemma validation_calls_app (tr1 tr2 : list event) :
  validation_calls (tr1 ++ tr2) = validation_calls tr1 ++ validation_calls tr2.
Proof. apply omap_app. Qed.

Lemma validation_calls_steps (e : nat) (bs : list batch) :
  validation_calls (map (EvTrainStep e) bs : list event) = [].
Proof. induction bs as [| b bs IH]; [reflexivity | exact IH]. Qed.

(** The logging and the best-model update of an epoch whose passes have
    returned. *)
Lemma epoch_tail (e : nat) (tl vl : float) (mv : measures) (test : test_vars)
    (s : state) :
  (tests_during_training conf = true -> is_Some test) ->
  exists st' evs,
    bind (tensorboard conf e tl vl mv test)
         (fun _ => update_best_model ds conf e vl mv test) s = (Ok tt, st')
    /\ trace st' = trace s ++ evs
    /\ Forall after_validation evs
    /\ EvGuard e (net s) vl (best_val_criterion s) ∈ evs
    /\ var_val_OR st' = var_val_OR s.
Proof.
  intros Htest.
  destruct (tensorboard_spec conf e tl vl mv test s)
    as (r2 & s2 & H2 & (evs2 & (Hb & _ & _ & Ht) & Hs) & Hn & Hok).
  assert (Hk : keeps (fun a b : state => var_val_OR b = var_val_OR a)
                 (tensorboard conf e tl vl mv test)).
  { assert (PreOrder (fun a b : state => var_val_OR b = var_val_OR a)).
    { split; [intros a; reflexivity | intros a b c Ha Hc; congruence]. }
    keeps_prog ltac:(reflexivity). }
  specialize (Hk s). rewrite H2 in Hk. cbn [snd] in Hk.
  cbv [bind]. rewrite H2, (Hok Htest).
  assert (Hscalars : Forall after_validation evs2).
  { eapply Forall_impl; [exact Hs |]. intros []; simpl; tauto. }
  destruct (PyFloat.lt vl (best_val_criterion s2) && past_sixth (n_epochs conf) e)
    eqn:Hguard.
  - rewrite update_taken by assumption.
    eexists _, (evs2 ++ [EvGuard e (net s) vl (best_val_criterion s);
                         EvCheckpoint e (net s)]).
    split; [reflexivity |]. cbn [trace var_val_OR]. rewrite Ht, Hn, Hb, <- app_assoc.
    split; [reflexivity |].
    split; [apply Forall_app; split; [exact Hscalars | repeat constructor] |].
    split; [| exact Hk]. apply elem_of_app. right. left.
  - rewrite update_not_taken by assumption.
    eexists _, (evs2 ++ [EvGuard e (net s) vl (best_val_criterion s)]).
    split; [reflexivity |]. cbn [trace var_val_OR set_trace].
    rewrite Ht, Hn, Hb, <- app_assoc.
    split; [reflexivity |].
    split; [apply Forall_app; split; [exact Hscalars | repeat constructor] |].
    split; [| exact Hk]. apply elem_of_app. right. left.
Qed.

(** C5, amended: in an epoch whose training pass completes and whose
    validation split is not empty, [measure] is called exactly once on the
    validation split, after the steps of training, with the means, the
    predictions and the standard deviations of all the validation batches.
    When [measure] returns, the validation pass has as its values the loss
    of the split (the summed loss of the batches over their number) and what
    [measure] returned, [val_OR] is bound to the outlier ratio, the epoch
    completes unless a test pass is made and fails, and the best-model test
    of a completed epoch is made with that loss.  When [measure] raises, the
    epoch stops at the call. *)
Theorem validation_once_per_epoch (e : nat) (st st1 : state) (tl : float) :
  train_pass fw ds e st = (Ok tl, st1) ->
  valloader ds e <> [] ->
  exists val_loss after,
    split_loss fw (net_eval fw (net st1)) (valloader ds e) = Some val_loss
    /\ trace (snd (epoch_body fw ds conf e st))
       = trace st ++ map (EvTrainStep e) (trainloader ds e)
         ++ [EvMeasure e ValSplit (map mos (valloader ds e))
                       (predictions fw (net_eval fw (net st1)) (valloader ds e))
                       (map mos_std (valloader ds e))]
         ++ after
    /\ Forall after_validation after
    /\ validation_calls (trace (snd (epoch_body fw ds conf e st)))
       = validation_calls (trace st)
         ++ [(e, map mos (valloader ds e),
              predictions fw (net_eval fw (net st1)) (valloader ds e),
              map mos_std (valloader ds e))]
    /\ match measured fw (net_eval fw (net st1)) (valloader ds e) with
       | Some mv =>
           fst (eval_pass fw e ValSplit (valloader ds e)
                          (set_net (net_eval fw (net st1)) st1))
           = Ok (val_loss, mv,
                 (map mos (valloader ds e), map mos_std (valloader ds e),
                  predictions fw (net_eval fw (net st1)) (valloader ds e)))
           /\ var_val_OR (snd (epoch_body fw ds conf e st)) = Some (snd mv)
           /\ (fst (epoch_body fw ds conf e st) = Ok tt
               <-> (tests_during_training conf = true ->
                    testloader ds e <> []
                    /\ is_Some (measured fw (net_eval fw (net st1))
                                         (testloader ds e))))
           /\ (fst (epoch_body fw ds conf e st) = Ok tt ->
               EvGuard e (net_eval fw (net st1)) val_loss (best_val_criterion st)
               ∈ after)
       | None =>
           (exists x, fst (epoch_body fw ds conf e st) = Raise x) /\ after = []
       end.
Proof.
  intros Htrain Hval.
  destruct (train_pass_spec fw ds e st) as (r0 & st0 & H0 & Hem & _).
  rewrite Htrain in H0. injection H0 as <- <-.
  destruct Hem as (Hb1 & _ & _ & Ht1).
  set (n := net_eval fw (net st1)).
  set (s1 := set_net n st1).
  destruct (eval_pass_closed e ValSplit (valloader ds e) s1 Hval)
    as (vl & Hvl & Hev).
  change (net s1) with n in Hvl, Hev.
  set (call := EvMeasure e ValSplit (map mos (valloader ds e))
                         (predictions fw n (valloader ds e))
                         (map mos_std (valloader ds e))) in *.
  set (s2 := set_trace (trace s1 ++ [call])
                       (set_var_i (Some (length (valloader ds e) - 1)%nat) s1)) in *.
  assert (Hbody : epoch_body fw ds conf e st
                  = bind (bind (eval_pass fw e ValSplit (valloader ds e))
                            (fun v => let '(val_loss, val_mv, _) := v in
                               bind (modify (set_var_val_OR (Some (snd val_mv))))
                                 (fun _ =>
                               bind (if tests_during_training conf
                                     then bind (eval_pass fw e TestSplit (testloader ds e))
                                               (fun t => ret (Some t))
                                     else ret None)
                                 (fun test => ret (tl, val_loss, val_mv, test)))))
                      (fun r => let '(train_loss, val_loss, val_mv, test) := r in
                         bind (tensorboard conf e train_loss val_loss val_mv test)
                           (fun _ => update_best_model ds conf e val_loss val_mv test))
                      s1).
  { unfold epoch_body, passes. cbv [bind modify]. rewrite Htrain. reflexivity. }
  exists vl.
  assert (Hcore : exists after,
    trace (snd (epoch_body fw ds conf e st))
    = trace st ++ map (EvTrainStep e) (trainloader ds e) ++ [call] ++ after
    /\ Forall after_validation after
    /\ match measured fw n (valloader ds e) with
       | Some mv =>
           fst (eval_pass fw e ValSplit (valloader ds e) s1)
           = Ok (vl, mv, (map mos (valloader ds e), map mos_std (valloader ds e),
                          predictions fw n (valloader ds e)))
           /\ var_val_OR (snd (epoch_body fw ds conf e st)) = Some (snd mv)
           /\ (fst (epoch_body fw ds conf e st) = Ok tt
               <-> (tests_during_training conf = true ->
                    testloader ds e <> []
                    /\ is_Some (measured fw n (testloader ds e))))
           /\ (fst (epoch_body fw ds conf e st) = Ok tt ->
               EvGuard e n vl (best_val_criterion st) ∈ after)
       | None =>
           (exists x, fst (epoch_body fw ds conf e st) = Raise x) /\ after = []
       end).
  { rewrite Hbody. cbv [bind] . rewrite Hev.
    assert (Htr2 : trace s2
                   = trace st ++ map (EvTrainStep e) (trainloader ds e) ++ [call]).
    { subst s2 s1. cbn [trace set_trace set_var_i set_net]. rewrite Ht1.
      rewrite <- app_assoc. reflexivity. }
    destruct (measured fw n (valloader ds e)) as [mv |] eqn:Hm.
    2:{ exists []. cbn [snd fst]. rewrite app_nil_r.
        split; [exact Htr2 |]. split; [constructor |]. eauto. }
    cbv [modify].
    set (s2' := set_var_val_OR (Some (snd mv)) s2).
    assert (Htr2' : trace s2' = trace s2) by reflexivity.
    assert (Hn2' : net s2' = n) by reflexivity.
    assert (Hb2' : best_val_criterion s2' = best_val_criterion st).
    { subst s2' s2 s1. cbn. exact Hb1. }
    destruct (tests_during_training conf) eqn:Htests.
    - destruct (testloader ds e) as [| tb tbs] eqn:Htl.
      + cbv [bind]. rewrite eval_pass_nil. exists []. cbn [snd fst].
        rewrite app_nil_r. split; [congruence |]. split; [constructor |].
        split; [reflexivity |]. split; [reflexivity |].
        split; [| discriminate].
        split; [discriminate |]. intros H. destruct (H eq_refl) as [H' _].
        congruence.
      + assert (Hne : tb :: tbs <> []) by discriminate.
        destruct (eval_pass_closed e TestSplit (tb :: tbs) s2' Hne)
          as (tloss & _ & Hev3).
        rewrite Hn2' in Hev3. cbv [bind]. rewrite Hev3.
        set (tcall := EvMeasure e TestSplit (map mos (tb :: tbs))
                                (predictions fw n (tb :: tbs))
                                (map mos_std (tb :: tbs))) in *.
        set (s3 := set_trace (trace s2' ++ [tcall]) _) in *.
        destruct (measured fw n (tb :: tbs)) as [tmv |] eqn:Htm.
        * cbv [ret].
          destruct (epoch_tail e tl vl mv
                      (Some (tloss, tmv, (map mos (tb :: tbs), map mos_std (tb :: tbs),
                                          predictions fw n (tb :: tbs)))) s3)
            as (st' & evs & Htail & Htr & Hquiet & Hin & Hor); [eauto |].
          cbv [bind] in Htail. rewrite Htail. cbn [snd fst].
          exists (tcall :: evs).
          split.
          { rewrite Htr. subst s3. cbn [trace set_trace set_var_i].
            rewrite Htr2', Htr2, <- !app_assoc. reflexivity. }
          split; [constructor; [exact I | exact Hquiet] |].
          split; [reflexivity |]. split; [rewrite Hor; reflexivity |].
          split; [split; [intros _ _; split; [discriminate | eauto] | reflexivity] |].
          intros _. right. 
          replace (best_val_criterion st) with (best_val_criterion s3)
            by exact Hb2'.
          exact Hin.
        * exists [tcall]. cbn [snd fst].
          split.
          { subst s3. cbn [trace set_trace set_var_i].
            rewrite Htr2', Htr2, <- !app_assoc. reflexivity. }
          split; [repeat constructor |].
          split; [reflexivity |]. split; [reflexivity |].
          split; [| discriminate].
          split; [discriminate |]. intros H. destruct (H eq_refl) as [_ [x Hx]].
          discriminate.
    - cbv [bind ret].
      destruct (epoch_tail e tl vl mv None s2')
        as (st' & evs & Htail & Htr & Hquiet & Hin & Hor);
        [intros Hc; rewrite Htests in Hc; discriminate Hc |].
      cbv [bind] in Htail. rewrite Htail. cbn [snd fst].
      exists evs.
      split; [rewrite Htr, Htr2', Htr2, <- !app_assoc; reflexivity |].
      split; [exact Hquiet |].
      split; [reflexivity |]. split; [rewrite Hor; reflexivity |].
      split; [split; [discriminate | reflexivity] |].
      intros _. rewrite <- Hb2'. exact Hin. }
  destruct Hcore as (after & Hshape & Hafter & Hrest).
  exists after. split; [exact Hvl |]. split; [exact Hshape |].
  split; [exact Hafter |]. split; [| exact Hrest].
  rewrite Hshape, !validation_calls_app, validation_calls_steps,
    (validation_calls_quiet after Hafter).
  reflexivity.
Qed.

(** *** Invariants of the run *)

(** A property of the state that the quiet steps and the best-model update
    keep holds after every number of epochs and when the program ends. *)
Lemma run_invariant (P : state -> Prop) (net0 : Net) (opt0 : Opt) :
  P (init_state net0 opt0) ->
  (forall st st', quiet_step st st' -> P st -> P st') ->
  (forall e l mv test st,
     (tests_during_training conf = true -> is_Some test) ->
     P st -> P (snd (update_best_model ds conf e l mv test st))) ->
  P (final_state fw ds conf net0 opt0).
Proof.
  intros Hinit Hquiet Hupdate. rewrite final_state_after. unfold after_epochs.
  apply for_range_invariant; [| exact Hinit].
  intros e st HP.
  destruct (epoch_body_cases e st)
    as [(x1 & st1 & _ & He & Hq)
       | (tl & vl & mv & test & st1 & st2 & _ & Htest & Hq & _ & _ & He)];
    rewrite He.
  - eapply Hquiet; eauto.
  - apply Hupdate; [exact Htest |]. eapply Hquiet; eauto.
Qed.

Lemma checkpoint_epochs_quiet (tr evs : list event) :
  Forall quiet evs -> checkpoint_epochs (tr ++ evs) = checkpoint_epochs tr.
Proof.
  intros Hq. unfold checkpoint_epochs. rewrite omap_app.
  replace (omap _ evs) with (@nil nat); [apply app_nil_r |].
  induction Hq as [| ev evs Hev _ IH]; [reflexivity |].
  destruct ev; simpl in *; try contradiction; exact IH.
Qed.

Lemma announced_update_lines (e : nat) (l : float) (mv : measures)
    (test : test_vars) :
  announced (update_lines conf e l mv test) = [e].
Proof.
  destruct mv as [[[[s k] p] r] o]. unfold update_lines.
  destruct test as [[[tl [[[[ts tk] tp] tr] to]] lists] |]; [| reflexivity].
  destruct (tests_during_training conf); reflexivity.
Qed.

(** The updates announced on the standard output are the checkpoints
    written, epoch by epoch. *)
Theorem announced_updates_are_checkpoints (net0 : Net) (opt0 : Opt) :
  announced (stdout (final_state fw ds conf net0 opt0))
  = checkpoint_epochs (trace (final_state fw ds conf net0 opt0)).
Proof.
  apply (run_invariant
           (fun st => announced (stdout st) = checkpoint_epochs (trace st)));
    [reflexivity | |].
  - intros st st' (evs & (_ & _ & Ho & Ht) & Hq) HP.
    rewrite Ho, Ht, checkpoint_epochs_quiet by exact Hq. exact HP.
  - intros e l mv test st Htest HP.
    destruct (PyFloat.lt l (best_val_criterion st) && past_sixth (n_epochs conf) e)
      eqn:Hguard.
    + rewrite update_taken by assumption. cbn [snd stdout trace].
      unfold announced at 1. rewrite omap_app. fold (announced (stdout st)).
      fold (announced (update_lines conf e l mv test)).
      rewrite announced_update_lines, HP. unfold checkpoint_epochs.
      rewrite omap_app. reflexivity.
    + rewrite update_not_taken by assumption. cbn [snd stdout trace set_trace].
      rewrite HP. unfold checkpoint_epochs. rewrite omap_app. simpl.
      rewrite app_nil_r. reflexivity.
Qed.

(** [step] ends at one more than the number of optimizer steps taken. *)
Theorem step_counts_optimizer_steps (net0 : Net) (opt0 : Opt) :
  step (final_state fw ds conf net0 opt0)
  = S (train_steps (trace (final_state fw ds conf net0 opt0))).
Proof.
  pose proof (main_counts_steps (init_state net0 opt0)) as H.
  unfold step_counts in H. unfold final_state.
  change (train_steps (trace (init_state net0 opt0))) with 0%nat in H.
  change (step (init_state net0 opt0)) with 1%nat in H. lia.
Qed.






(** *** Ties and NaN *)

Lemma lookup_app_cases (tr ext : list event) (j : nat) (ev : event) :
  (tr ++ ext) !! j = Some ev ->
  ((j < length tr)%nat /\ tr !! j = Some ev)
  \/ ((length tr <= j)%nat /\ ext !! (j - length tr)%nat = Some ev).
Proof.
  intros H. apply lookup_app_Some in H as [H | [Hle H]].
  - left. split; [eapply lookup_lt_Some; exact H | exact H].
  - right. auto.
Qed.

Lemma lookup_quiet (ext : list event) (k : nat) (ev : event) :
  Forall quiet ext -> ext !! k = Some ev -> quiet ev.
Proof.
  intros Hq H. eapply Forall_forall; [exact Hq |].
  eapply list_elem_of_lookup_2. exact H.
Qed.

Lemma beat_extend (tr ext : list event) :
  no_checkpoint ext -> checkpoints_beat_earlier conf tr ->
  checkpoints_beat_earlier conf (tr ++ ext).
Proof.
  intros Hno HT i j e' n' l' b' e n l b Hi Hj HSj Hlt Hp.
  apply lookup_app_cases in HSj as [[HSj HC] | [_ HC]].
  - apply lookup_app_cases in Hi as [[_ Hi] | [Hi _]]; [| lia].
    apply lookup_app_cases in Hj as [[_ Hj] | [Hj _]]; [| lia].
    eapply HT; eauto.
  - apply list_elem_of_lookup_2 in HC.
    exfalso. exact (proj1 (Forall_forall _ _) Hno _ HC I).
Qed.

Lemma below_not_taken (e : nat) (l : float) (st : state) :
  criterion_below_losses conf st ->
  PyFloat.lt l (best_val_criterion st) && past_sixth (n_epochs conf) e = false ->
  criterion_below_losses conf
    (set_trace (trace st ++ [EvGuard e (net st) l (best_val_criterion st)]) st).
Proof.
  intros [Hnan HJ] Hguard. split; [exact Hnan |].
  cbn [best_val_criterion trace set_trace].
  intros i e0 n0 l0 b0 Hi Hp.
  apply lookup_app_cases in Hi as [[_ Hi] | [Hle Hi]]; [eauto |].
  destruct (i - length (trace st))%nat as [| k]; simpl in Hi; [| discriminate].
  injection Hi as <- <- <- <-. rewrite Hp, andb_true_r in Hguard.
  destruct (PyOrder.is_nan l) eqn:Hl; [left; reflexivity | right].
  apply PyOrderFacts.not_lt_le; assumption.
Qed.

Lemma ties_invariant (net0 : Net) (opt0 : Opt) :
  let st := final_state fw ds conf net0 opt0 in
  criterion_below_losses conf st /\ checkpoints_beat_earlier conf (trace st).
Proof.
  apply (run_invariant
           (fun st => criterion_below_losses conf st
                      /\ checkpoints_beat_earlier conf (trace st))).
  - split; [split; [reflexivity |] |].
    + intros i e n l b H. simpl in H. rewrite lookup_nil in H. discriminate.
    + intros i j e' n' l' b' e n l b H. simpl in H. rewrite lookup_nil in H.
      discriminate.
  - intros st st' (evs & (Hb & _ & _ & Ht) & Hq) [[Hnan HJ] HT].
    split; [split |].
    + rewrite Hb. exact Hnan.
    + intros i e n l b Hi Hp. rewrite Hb. rewrite Ht in Hi.
      apply lookup_app_cases in Hi as [[_ Hi] | [_ Hi]]; [eauto |].
      exfalso. exact (lookup_quiet _ _ _ Hq Hi).
    + rewrite Ht. apply beat_extend; [apply quiet_no_checkpoint; exact Hq | exact HT].
  - intros e l mv test st Htest [[Hnan HJ] HT].
    destruct (PyFloat.lt l (best_val_criterion st)) eqn:Hlt;
      destruct (past_sixth (n_epochs conf) e) eqn:Hpast.
    1:{ rewrite update_taken by (try assumption; rewrite Hlt, Hpast; reflexivity).
        cbn [snd]. unfold criterion_below_losses.
        cbn [best_val_criterion trace].
        destruct (PyOrderFacts.lt_not_nan _ _ Hlt) as [Hl _].
        split; [split; [exact Hl |] |].
        - intros i e0 n0 l0 b0 Hi Hp.
          apply lookup_app_cases in Hi as [[_ Hi] | [Hle Hi]].
          + destruct (HJ i e0 n0 l0 b0 Hi Hp) as [H | H]; [left; exact H |].
            right. apply PyOrderFacts.lt_le.
            eapply PyOrderFacts.lt_le_trans; eauto.
          + destruct (i - length (trace st))%nat as [| [| k]]; simpl in Hi;
              [| discriminate | discriminate].
            injection Hi as <- <- <- <-. right. apply PyOrderFacts.le_refl. exact Hl.
        - intros i j e' n' l' b' e1 n1 l1 b1 Hi Hj HSj Hij Hp.
          apply lookup_app_cases in HSj as [[HSj HC] | [HSj HC]].
          + apply lookup_app_cases in Hi as [[_ Hi] | [Hi _]]; [| lia].
            apply lookup_app_cases in Hj as [[_ Hj] | [Hj _]]; [| lia].
            eapply HT; eauto.
          + destruct (S j - length (trace st))%nat as [| [| k]] eqn:Hk;
              simpl in HC; [discriminate | | discriminate].
            assert (Hjl : j = length (trace st)) by lia. subst j.
            rewrite lookup_app_r, Nat.sub_diag in Hj by lia. simpl in Hj.
            injection Hj as <- <- <- <-.
            apply lookup_app_cases in Hi as [[_ Hi] | [Hi _]]; [| lia].
            destruct (HJ i e' n' l' b' Hi Hp) as [H | H]; [left; exact H |].
            right. eapply PyOrderFacts.lt_le_trans; eauto. }
    all: rewrite update_not_taken by (rewrite Hlt, Hpast; reflexivity);
      cbn [snd trace set_trace];
      (split; [apply below_not_taken; [split; assumption |
                                       rewrite Hlt, Hpast; reflexivity] |
               apply beat_extend; [| exact HT]]);
      constructor; [simpl; tauto | constructor].
Qed.

(** On ties the earlier checkpoint stays: a checkpoint is written only for
    a validation loss strictly below that of every earlier epoch past the
    first sixth whose loss is not NaN. *)
Theorem checkpoint_beats_earlier_epochs (net0 : Net) (opt0 : Opt) :
  checkpoints_beat_earlier conf (trace (final_state fw ds conf net0 opt0)).
Proof. exact (proj2 (ties_invariant net0 opt0)). Qed.

(** A NaN never becomes the criterion, and the criterion ends at most at
    every validation loss, NaN apart, of an epoch past the first sixth. *)
Theorem criterion_is_never_nan (net0 : Net) (opt0 : Opt) :
  criterion_below_losses conf (final_state fw ds conf net0 opt0).
Proof. exact (proj1 (ties_invariant net0 opt0)). Qed.

End FrameFacts.

End FrameFacts.

(** ** Broadcasting and empty inputs in the evaluator *)

Module NumpyMoreFacts.
Import Numpy NumpyFacts.

Lemma broadcast_single_r {A B C : Type} (f : A -> B -> C) (a : list A) (y : B) :
  broadcast f a [y] = Some (zip_with f a (replicate (length a) y)).
Proof.
  unfold broadcast. destruct (Nat.eqb (length a) (length [y])) eqn:Hlen.
  - apply Nat.eqb_eq in Hlen. destruct a as [| x [| x' a]]; try discriminate.
    reflexivity.
  - destruct a as [| x [| x' a]]; [reflexivity | discriminate |].
    f_equal. generalize (x :: x' :: a). intros l.
    induction l as [| z l IH]; simpl; [reflexivity | rewrite IH; reflexivity].
Qed.

Lemma broadcast_mismatch {A B C : Type} (f : A -> B -> C)
    (a : list A) (b : list B) :
  length a <> length b -> length a <> 1%nat -> length b <> 1%nat ->
  broadcast f a b = None.
Proof.
  intros Hne Ha Hb. unfold broadcast.
  destruct (Nat.eqb (length a) (length b)) eqn:Hlen;
    [apply Nat.eqb_eq in Hlen; contradiction |].
  destruct a as [| x [| x' a]], b as [| y [| y' b]]; simpl in *;
    congruence.
Qed.

(** A single standard deviation is broadcast: [measure] with a [sq_std] of
    one entry counts the outliers as if that entry were repeated for every
    item. *)
Theorem measure_single_std
    (spearmanr kendalltau pearsonr : list float -> list float -> option float)
    (add_reduce : list float -> float)
    (sq q sq_std : pyval) (a p : list float) (sd0 s k r : float) :
  reshape_flat sq = Some a ->
  reshape_flat q = Some p ->
  reshape_flat sq_std = Some [sd0] ->
  length a = length p ->
  spearmanr a p = Some s ->
  kendalltau a p = Some k ->
  pearsonr a p = Some r ->
  measure spearmanr kendalltau pearsonr add_reduce sq q sq_std
  = Some (s, k, r, rmse_spec add_reduce a p,
          outlier_ratio_spec a p (replicate (length a) sd0)).
Proof.
  intros Ha Hp Hsd Hlen Hs Hk Hr.
  unfold measure. rewrite Ha, Hsd, Hp. simpl.
  rewrite Hs, Hk, Hr. simpl.
  rewrite (broadcast_same_length PrimFloat.sub a p Hlen). simpl.
  rewrite broadcast_single_r. simpl.
  unfold rmse_spec, outlier_ratio_spec, mean_bool.
  rewrite squares_zip. rewrite !length_map, length_zip_with.
  replace (replicate (length a `min` length p) (2 * sd0))
    with (map (fun s0 => 2 * s0) (replicate (length a) sd0));
    [| rewrite fmap_replicate; f_equal; lia].
  rewrite outliers_zip, count_true_map.
  rewrite length_map, !length_combine, length_replicate.
  replace ((length a `min` length p) `min` length a)%nat with (length a) by lia.
  reflexivity.
Qed.

(** With standard deviations whose number is neither that of the items nor
    one, [measure] raises, although the three correlations were computed. *)
Theorem measure_std_mismatch
    (spearmanr kendalltau pearsonr : list float -> list float -> option float)
    (add_reduce : list float -> float)
    (sq q sq_std : pyval) (a p sd : list float) (s k r : float) :
  reshape_flat sq = Some a ->
  reshape_flat q = Some p ->
  reshape_flat sq_std = Some sd ->
  length a = length p ->
  spearmanr a p = Some s ->
  kendalltau a p = Some k ->
  pearsonr a p = Some r ->
  length sd <> length a -> length sd <> 1%nat -> length a <> 1%nat ->
  measure spearmanr kendalltau pearsonr add_reduce sq q sq_std = None.
Proof.
  intros Ha Hp Hsd Hlen Hs Hk Hr Hne Hsd1 Ha1.
  unfold measure. rewrite Ha, Hsd, Hp. simpl.
  rewrite Hs, Hk, Hr. simpl.
  rewrite (broadcast_same_length PrimFloat.sub a p Hlen). simpl.
  rewrite broadcast_mismatch; [reflexivity | | |];
    rewrite !length_map, ?length_zip_with; lia.
Qed.

Lemma measure_single_std_witness :
  measure Toy.corr Toy.corr Toy.corr Toy.sum_left
          (flat [1; 2; 4]) (flat [1; 3; 8]) (Num 1)
  = Some (1, 1, 1, rmse_spec Toy.sum_left [1; 2; 4] [1; 3; 8],
          outlier_ratio_spec [1; 2; 4] [1; 3; 8] (replicate 3 1)).
Proof.
  apply (measure_single_std Toy.corr Toy.corr Toy.corr Toy.sum_left
           (flat [1; 2; 4]) (flat [1; 3; 8]) (Num 1) [1; 2; 4] [1; 3; 8] 1 1 1 1);
    reflexivity.
Defined.

Lemma measure_std_mismatch_witness :
  measure Toy.corr Toy.corr Toy.corr Toy.sum_left
          (flat [1; 2; 4]) (flat [1; 3; 8]) (flat [1; 1])
  = None.
Proof.
  apply (measure_std_mismatch Toy.corr Toy.corr Toy.corr Toy.sum_left
           (flat [1; 2; 4]) (flat [1; 3; 8]) (flat [1; 1])
           [1; 2; 4] [1; 3; 8] [1; 1] 1 1 1);
    first [reflexivity | simpl; lia].
Defined.

End NumpyMoreFacts.

(** ** The configuration *)

Module SetupFacts.
Import Controller Setup.

Section SetupFacts.

Context {Obj : Type}.
Variable update_other :
  gmap string (value Obj) -> Obj -> outcome (gmap string (value Obj)).

Lemma lookup_key_some (conf : gmap string (value Obj)) (k : string)
    (v : value Obj) :
  conf !! k = Some v -> lookup_key conf k = Done v.
Proof. intros H. unfold lookup_key. rewrite H. reflexivity. Qed.

(** The entries of the section of the model come first, then those of the
    section of the database, then those of the top level (with the
    database and the model of the command line, when given). *)
Theorem setup_precedence (argv : list string) (c d1 d2 : gmap string (value Obj))
    (db m : string) :
  overrides argv c !! "database" = Some (VStr db) ->
  overrides argv c !! "model" = Some (VStr m) ->
  overrides argv c !! db = Some (VDict d1) ->
  (d1 ∪ overrides argv c) !! m = Some (VDict d2) ->
  is_Some ((d2 ∪ (d1 ∪ overrides argv c)) !! "test_ratio") ->
  exists r,
    setup update_other argv (VDict c) = Done r
    /\ database_name r = db
    /\ model_name r = m
    /\ forall k,
         merged r !! k
         = match d2 !! k with
           | Some v => Some v
           | None => match d1 !! k with
                     | Some v => Some v
                     | None => overrides argv c !! k
                     end
           end.
Proof.
  intros Hdb Hm Hsec1 Hsec2 [tr Htr]. unfold setup.
  rewrite (lookup_key_some _ _ _ Hdb), (lookup_key_some _ _ _ Hm). simpl.
  rewrite (lookup_key_some _ _ _ Hsec1). simpl.
  rewrite (lookup_key_some _ _ _ Hsec2). simpl.
  rewrite (lookup_key_some _ _ _ Htr). simpl.
  eexists. split; [reflexivity |]. split; [reflexivity |]. split; [reflexivity |].
  intros k. simpl. rewrite !lookup_union.
  destruct (d2 !! k), (d1 !! k), (overrides argv c !! k); reflexivity.
Qed.

(** A database without a section of its own in the file stops the script
    with the [KeyError] of its name. *)
Theorem setup_missing_section (argv : list string) (c : gmap string (value Obj))
    (db m : string) :
  overrides argv c !! "database" = Some (VStr db) ->
  overrides argv c !! "model" = Some (VStr m) ->
  overrides argv c !! db = None ->
  setup update_other argv (VDict c) = Failed (KeyError db).
Proof.
  intros Hdb Hm Hsec. unfold setup.
  rewrite (lookup_key_some _ _ _ Hdb), (lookup_key_some _ _ _ Hm). simpl.
  unfold lookup_key. rewrite Hsec. reflexivity.
Qed.

Lemma overrides_database (argv : list string) (c : gmap string (value Obj))
    (a : string) :
  argv !! 3%nat = Some a -> overrides argv c !! "database" = Some (VStr a).
Proof.
  intros H. unfold overrides, override. rewrite H.
  destruct (argv !! 4%nat); [rewrite lookup_insert_ne by discriminate |];
    apply lookup_insert_eq.
Qed.

(** A database named on the command line is the one used, whatever the
    file says. *)
Theorem command_line_database_wins (argv : list string)
    (c : gmap string (value Obj)) (a : string) (r : settings Obj) :
  argv !! 3%nat = Some a ->
  setup update_other argv (VDict c) = Done r ->
  database_name r = a.
Proof.
  intros Ha. unfold setup.
  rewrite (lookup_key_some _ _ _ (overrides_database argv c a Ha)). simpl.
  repeat match goal with
         | |- and_then ?o _ = Done _ -> _ =>
             destruct o; simpl; [| discriminate]
         end.
  intros H. injection H as <-. reflexivity.
Qed.

End SetupFacts.

(** Whenever the test split is used ([test_ratio > 0]) its loader has been
    made ([test_ratio] is true). *)
Theorem test_loader_bound_when_used (conf : config) :
  has_test conf = true -> testloader_bound conf = true.
Proof. apply PyOrderFacts.positive_truthy. Qed.

Lemma setup_precedence_witness :
  exists r,
    setup ToyMore.not_iterable ["WaDIQaM.py"; "7"] ToyMore.loaded = Done r
    /\ database_name r = "LIVE"
    /\ model_name r = "WaDIQaM-FR"
    /\ merged r !! "n_epochs" = Some (ToyMore.num 1000)
    /\ merged r !! "test_ratio" = Some (ToyMore.num 0.125).
Proof.
  destruct (setup_precedence ToyMore.not_iterable ["WaDIQaM.py"; "7"]
              ToyMore.top_level ToyMore.live_section ToyMore.model_section
              "LIVE" "WaDIQaM-FR")
    as (r & Hr & Hdb & Hm & Hk);
    [reflexivity | reflexivity | reflexivity | reflexivity
    | eexists; reflexivity |].
  exists r. split; [exact Hr |]. split; [exact Hdb |]. split; [exact Hm |].
  rewrite !Hk. split; reflexivity.
Defined.

Lemma setup_missing_section_witness :
  setup ToyMore.not_iterable ["WaDIQaM.py"; "7"; "config.yaml"; "CSIQ"]
        ToyMore.loaded
  = Failed (KeyError "CSIQ").
Proof.
  apply (setup_missing_section ToyMore.not_iterable
           ["WaDIQaM.py"; "7"; "config.yaml"; "CSIQ"] ToyMore.top_level
           "CSIQ" "WaDIQaM-FR");
    reflexivity.
Defined.

Lemma command_line_database_wins_witness :
  exists r,
    setup ToyMore.not_iterable ["WaDIQaM.py"; "7"; "config.yaml"; "TID2008"]
          ToyMore.loaded = Done r
    /\ database_name r = "TID2008".
Proof.
  assert (H : exists r,
             setup ToyMore.not_iterable
                   ["WaDIQaM.py"; "7"; "config.yaml"; "TID2008"]
                   ToyMore.loaded = Done r)
    by (vm_compute; eexists; reflexivity).
  destruct H as [r Hr]. exists r. split; [exact Hr |].
  apply (command_line_database_wins ToyMore.not_iterable
           ["WaDIQaM.py"; "7"; "config.yaml"; "TID2008"] ToyMore.top_level
           "TID2008" r);
    [reflexivity | exact Hr].
Defined.

Lemma test_loader_bound_when_used_witness :
  testloader_bound (Toy.conf 0.5 true) = true.
Proof. apply (test_loader_bound_when_used (Toy.conf 0.5 true)). reflexivity. Defined.

End SetupFacts.

(** ** Further runs of the small framework *)

Module MoreRuns.
Import Numpy Controller Observe Frames FrameFacts.

(** Epoch 0 without validation images. *)
Lemma failing_epoch_writes_nothing_witness :
  let st := init_state 0%nat tt in
  let st' := snd (epoch_body Toy.fw ToyMore.no_val (Toy.conf 0 false) 0 st) in
  passes Toy.fw ToyMore.no_val (Toy.conf 0 false) 0 st = (Raise TypeError, st')
  /\ fs st' = fs st
  /\ stdout st' = stdout st
  /\ best_val_criterion st' = best_val_criterion st
  /\ exists evs, trace st' = trace st ++ evs /\ Forall quiet evs.
Proof.
  apply (failing_epoch_writes_nothing Toy.fw ToyMore.no_val (Toy.conf 0 false) 0
           (init_state 0%nat tt)
           (snd (epoch_body Toy.fw ToyMore.no_val (Toy.conf 0 false) 0
                            (init_state 0%nat tt)))
           TypeError).
  vm_compute. reflexivity.
Defined.

(** Epoch 0 with two validation batches, each of loss 0.25: the summed
    loss is 0.5, the validation loss 0.25, and the best-model test is made
    with it. *)
Example epoch_with_two_validation_batches :
  let st := init_state 0%nat tt in
  summed_loss Toy.fw 1%nat (valloader ToyMore.two_val 0) = Some (Toy.scalar 0.5)
  /\ split_loss Toy.fw 1%nat (valloader ToyMore.two_val 0) = Some 0.25
  /\ measured Toy.fw 1%nat (valloader ToyMore.two_val 0) = Some (1, 1, 1, 4, 1)
  /\ guard_events
       (trace (snd (epoch_body Toy.fw ToyMore.two_val (Toy.conf 0.5 true) 0 st)))
     = [(0%nat, 1%nat, 0.25, 10000)].
Proof. vm_compute. auto. Qed.

Lemma validation_once_per_epoch_witness :
  let st := init_state 0%nat tt in
  let conf := Toy.conf 0.5 true in
  let bs := valloader ToyMore.two_val 0 in
  let r := epoch_body Toy.fw ToyMore.two_val conf 0 st in
  exists val_loss after,
    split_loss Toy.fw 1%nat bs = Some val_loss
    /\ trace (snd r)
       = trace st ++ map (EvTrainStep 0) (trainloader ToyMore.two_val 0)
         ++ [EvMeasure 0 ValSplit (map mos bs) (predictions Toy.fw 1%nat bs)
                       (map mos_std bs)]
         ++ after
    /\ Forall after_validation after
    /\ validation_calls (trace (snd r))
       = validation_calls (trace st)
         ++ [(0%nat, map mos bs, predictions Toy.fw 1%nat bs, map mos_std bs)]
    /\ fst (eval_pass Toy.fw 0 ValSplit bs
                      (set_net 1%nat (snd (train_pass Toy.fw ToyMore.two_val 0 st))))
       = Ok (val_loss, (1, 1, 1, 4, 1),
             (map mos bs, map mos_std bs, predictions Toy.fw 1%nat bs))
    /\ var_val_OR (snd r) = Some 1
    /\ EvGuard 0 1%nat val_loss 10000 ∈ after.
Proof.
  intros st conf bs r.
  destruct (validation_once_per_epoch Toy.fw ToyMore.two_val conf 0 st
              (snd (train_pass Toy.fw ToyMore.two_val 0 st)) 1)
    as (vl & after & Hvl & Hshape & Hafter & Hcalls & Hrest);
    [vm_compute; reflexivity | discriminate |].
  exists vl, after.
  split; [exact Hvl |]. split; [exact Hshape |]. split; [exact Hafter |].
  split; [exact Hcalls |].
  destruct Hrest as (Hvalue & Hor & Hok & Hguard).
  split; [exact Hvalue |]. split; [exact Hor |].
  apply Hguard. apply Hok. intros _. split; [discriminate |].
  vm_compute. eauto.
Defined.

(** Epoch 0 without validation images: the training pass completes and
    [measure] is not called on the validation split. *)
Example epoch_without_validation_images :
  let st := init_state 0%nat tt in
  fst (train_pass Toy.fw ToyMore.no_val 0 st) = Ok 1
  /\ validation_calls
       (trace (snd (epoch_body Toy.fw ToyMore.no_val (Toy.conf 0 false) 0 st)))
     = [].
Proof. vm_compute. auto. Qed.

(** C5 as stated fails: with a validation split that yields no batch the
    training pass of epoch 0 completes and the evaluator is not invoked. *)
Lemma evaluator_not_invoked_on_empty_split :
  ~ evaluator_invoked_once Toy.fw ToyMore.no_val (Toy.conf 0 false) 0
      (init_state 0%nat tt).
Proof.
  destruct epoch_without_validation_images as [Htrain Hcalls].
  intros H.
  specialize (H 1 (snd (train_pass Toy.fw ToyMore.no_val 0 (init_state 0%nat tt)))).
  rewrite Hcalls in H.
  assert (Hpass : train_pass Toy.fw ToyMore.no_val 0 (init_state 0%nat tt)
                  = (Ok 1, snd (train_pass Toy.fw ToyMore.no_val 0
                                           (init_state 0%nat tt)))).
  { destruct (train_pass Toy.fw ToyMore.no_val 0 (init_state 0%nat tt)) as [r s].
    simpl in Htrain. subst r. reflexivity. }
  specialize (H Hpass). apply (f_equal length) in H.
  rewrite length_app in H. simpl in H. lia.
Qed.

Lemma epoch_returns_after_passes_witness :
  exists st',
    epoch_body Toy.fw Toy.data (Toy.conf 0 false) 0 (init_state 0%nat tt)
    = (Ok tt, st').
Proof.
  apply (epoch_returns_after_passes Toy.fw Toy.data (Toy.conf 0 false) 0
           (init_state 0%nat tt)
           (snd (passes Toy.fw Toy.data (Toy.conf 0 false) 0 (init_state 0%nat tt)))
           (1, 0.25, (1, 1, 1, 4, 1), None)%float).
  vm_compute. reflexivity.
Defined.

(** Six epochs without training images. *)
Lemma empty_training_split_stops_run_witness :
  main Toy.fw ToyMore.no_train (Toy.conf 0 false) (init_state 0%nat tt)
  = (Raise (NameError "i"),
     set_net (net_train Toy.fw 0%nat) (init_state 0%nat tt)).
Proof.
  apply (empty_training_split_stops_run Toy.fw ToyMore.no_train (Toy.conf 0 false)
           0%nat tt).
  - simpl. lia.
  - reflexivity.
Defined.

Lemma empty_validation_split_raises_witness :
  let st := init_state 0%nat tt in
  exists st',
    epoch_body Toy.fw ToyMore.no_val (Toy.conf 0 false) 0 st = (Raise TypeError, st')
    /\ emits st st' (map (EvTrainStep 0) (trainloader ToyMore.no_val 0)).
Proof.
  apply (empty_validation_split_raises Toy.fw ToyMore.no_val (Toy.conf 0 false) 0
           (init_state 0%nat tt)
           (snd (train_pass Toy.fw ToyMore.no_val 0 (init_state 0%nat tt)))
           1%float).
  - vm_compute. reflexivity.
  - reflexivity.
Defined.


(** The checkpoint of epoch 3 (loss 1) against the test of epoch 2
    (loss 2), at positions 12 and 8 of the trace. *)
Lemma checkpoint_beats_earlier_epochs_witness :
  PyOrder.is_nan 2 = true \/ PyFloat.lt 1 2 = true.
Proof.
  apply (checkpoint_beats_earlier_epochs Toy.fw Toy.data (Toy.conf 0 false)
           0%nat tt 8%nat 12%nat 2%nat 3%nat 2 10000 3%nat 4%nat 1 2).
  - vm_compute. reflexivity.
  - vm_compute. reflexivity.
  - vm_compute. reflexivity.
  - lia.
  - reflexivity.
Defined.

(** The run of six epochs: seven values of [step], three updates announced
    and three checkpoints, and a results file for the last of them. *)
Example run_counts :
  let st := final_state Toy.fw Toy.data (Toy.conf 0 false) 0%nat tt in
  step st = 7%nat
  /\ announced (stdout st) = [2; 3; 4]%nat
  /\ checkpoint_epochs (trace st) = [2; 3; 4]%nat
  /\ fs st !! (save_result_file (Toy.conf 0 false) +:+ ".txt")
     = Some (TextFile [UpdateLine "0" 4; ValResults 0.75 1 1 1 4 100]).
Proof. vm_compute. auto. Qed.

End MoreRuns.
